(** * pdf-info: signature and timestamp detection

    A shallow embedding of the signature/timestamp subsystem of the
    pdf-info tool ([signatures.go], [timestamp_analysis.go], [types.go])
    together with the properties its specification states about it.

    Conventions of the embedding.
    - A Go [string] is a byte sequence: Rocq's [string] (a list of 8-bit
      [ascii]).
    - A Go [int] is a [Z].  Every count below is bounded by the length of
      the file or by the number of objects of the document, so the 64-bit
      wrap-around is never reached and is not written out.
    - A Go [map[string]string] is a [gmap string string]; reading a
      missing key yields the empty string.
    - [info *PDFInfo] and [sigInfo *DigitalSignatureInfo] are mutated in
      place by the code; here every function takes the record and returns
      the updated one.
    - The file system, the validation service and the PDF object model are
      the program's environment; they are passed in explicitly. *)

From stdpp Require Import base gmap strings list.
From Stdlib Require Import ZArith Lia Bool DecimalString.

Local Open Scope string_scope.
Local Open Scope Z_scope.

(** ** Outcome of a fallible call: Go's [(value, error)] pair. *)

Inductive result (A : Type) : Type :=
| Ok (a : A)
| Err (msg : string).
Arguments Ok {A} a.
Arguments Err {A} msg.

(** ** The functions of Go's [strings] package that the code calls *)

Module strings.

(** [len(s)] as a Go [int]. *)
Definition len (s : string) : Z := Z.of_nat (String.length s).

(** [strings.HasPrefix(s, prefix)]. *)
Fixpoint HasPrefix (s prefix : string) {struct prefix} : bool :=
  match prefix with
  | EmptyString => true
  | String a prefix' =>
      match s with
      | EmptyString => false
      | String b s' => if Ascii.eqb a b then HasPrefix s' prefix' else false
      end
  end.

(** [strings.Index(s, substr)]: the byte index of the first occurrence,
    [-1] when there is none. *)
Fixpoint Index (s substr : string) : Z :=
  if HasPrefix s substr then 0
  else match s with
       | EmptyString => -1
       | String _ s' =>
           let i := Index s' substr in
           if i =? -1 then -1 else i + 1
       end.

(** [strings.Contains(s, substr)] is [Index(s, substr) >= 0]. *)
Definition Contains (s substr : string) : bool := 0 <=? Index s substr.

(** Left-to-right scan that counts the occurrences of [substr], jumping
    over each occurrence found; [skip] is the number of bytes of the last
    occurrence still to be passed. *)
Fixpoint countFrom (skip : nat) (s substr : string) : Z :=
  match s with
  | EmptyString => 0
  | String _ s' =>
      match skip with
      | S k => countFrom k s' substr
      | O =>
          if HasPrefix s substr
          then 1 + countFrom (Nat.pred (String.length substr)) s' substr
          else countFrom O s' substr
      end
  end.

(** [strings.Count(s, substr)]: the number of non-overlapping
    occurrences.  For the empty [substr] Go answers one more than the
    number of runes; the code only passes non-empty literals, and the
    byte count stands for the rune count in that unused case. *)
Definition Count (s substr : string) : Z :=
  match substr with
  | EmptyString => len s + 1
  | String _ _ => countFrom O s substr
  end.

(** The slice expression [s[lo:hi]].  Go panics unless
    [0 <= lo <= hi <= len(s)]; every slice taken by the code is guarded by
    a test on [len] or cut at an index returned by [Index], so that the
    indices are in range (see [candidate_in_range] for the two slices of
    the file content). *)
Definition slice (s : string) (lo hi : Z) : string :=
  String.substring (Z.to_nat lo) (Z.to_nat (hi - lo)) s.

End strings.

(** ** Byte-pattern signature scan ([signatures.go], lines 226-282) *)

(** The environment: [ioutil.ReadFile] and pdfcpu's
    [api.ValidateSignatures] are declared further down in [World]; the
    scan itself is a function of the bytes read. *)

Definition signaturePatterns : list string :=
  [ "/Type/Sig";
    "/FT/Sig";
    "/SigFlags";
    "Adobe.PPKLite";
    "Adobe.PPKMS";
    "PKCS#7";
    "pkcs7";
    "/ByteRange";
    "/Contents<";
    "/SubFilter/adbe.pkcs7.detached";
    "/SubFilter/adbe.pkcs7.sha1";
    "/SubFilter/ETSI.CAdES.detached";
    "/Filter/Adobe.PPKLite";
    "/Filter/Adobe.PPKMS" ].

Definition sigDictPatterns : list string :=
  [ "/Sig"; "<</Type/Sig"; "<</FT/Sig" ].

(** One iteration of [for _, pattern := range patterns]. *)
Definition countPattern (content : string) (signatureCount : Z) (pattern : string) : Z :=
  let count := strings.Count content pattern in
  if 0 <? count then
    if String.eqb pattern "/Type/Sig" || String.eqb pattern "/FT/Sig"
    then signatureCount + count
    else if signatureCount =? 0 then 1 else signatureCount
  else signatureCount.

(** The second loop: the first pattern contained sets the count to 1 and
    leaves the loop. *)
Fixpoint sigDictFallback (content : string) (patterns : list string) (signatureCount : Z) : Z :=
  match patterns with
  | [] => signatureCount
  | pattern :: rest =>
      if strings.Contains content pattern then 1
      else sigDictFallback content rest signatureCount
  end.

(** The body of [detectSignaturesByteAnalysis] after the file was read. *)
Definition scanSignatureBytes (content : string) : bool * Z :=
  let signatureCount := fold_left (countPattern content) signaturePatterns 0 in
  let signatureCount :=
    if signatureCount =? 0
    then sigDictFallback content sigDictPatterns signatureCount
    else signatureCount in
  (0 <? signatureCount, signatureCount).

(** ** The PDF object model the code consumes (pdfcpu) *)

(** The object graph is produced by the pdfcpu library, which is not part
    of the repository; it is taken here through the operations the
    code performs on it. *)
Module types.

Record IndirectRef := { ObjectNumber : Z; GenerationNumber : Z }.

(** [types.Object]: an interface value; Go's [nil] object is [None] of
    [option Object]. *)
#[local] Unset Elimination Schemes.
Inductive Object :=
| Name (n : string)
| Ref (r : IndirectRef)
| DictObj (d : list (string * option Object))
| ArrayObj (a : list (option Object))
| Integer (i : Z)
| Boolean (b : bool)
| StringLiteral (s : string).
#[local] Set Elimination Schemes.

Definition Dict := list (string * option Object).
Definition Array := list (option Object).

(** Modelled from the spec: the dictionary accessor of the external
    document model, "[entry(key) -> (Object, found)]".  The code calls it
    as [dict.Entry(key, "", false)] and drops the third result. *)
Fixpoint Entry (d : Dict) (key : string) : option Object * bool :=
  match d with
  | [] => (None, false)
  | (k, v) :: rest => if String.eqb k key then (v, true) else Entry rest key
  end.

(** The type assertion [obj.(types.Name)] followed by a comparison of
    the name with [want]. *)
Definition isName (obj : option Object) (want : string) : bool :=
  match obj with
  | Some (Name n) => String.eqb n want
  | _ => false
  end.

End types.

Module model.
Import types.

Record XRefTableEntry := { Object : option types.Object }.

(** Modelled from the spec: "[objectTableEntries(handle)]" and
    "[dereference(handle, indirectRef) -> (Object, error)]" of the
    external document model.  [FindTableEntry objNr genNr] is [None] when
    pdfcpu returns a nil entry. *)
Record XRefTable := {
  Size : Z;
  FindTableEntry : Z -> Z -> option XRefTableEntry
}.

Record Context := {
  RootDict : option Dict;
  XRefTable_ : option XRefTable;
  Dereference : IndirectRef -> result (option types.Object)
}.

End model.

(** ** The records of [types.go] *)

(** [DigitalSignatureInfo]. *)
Record DigitalSignatureInfo := {
  Type_ : string;
  SubFilter : string;
  SignerName : string;
  SigningTime : string;
  Location : string;
  Reason : string;
  ContactInfo : string;
  FieldName : string;
  IsValid : bool;
  IsCertified : bool;
  Status : string;
  ValidationErrors : list string;
  HasTimestamp : bool;
  TimestampType : string;
  TimestampTime : string;
  TimestampAuthority : string;
  TimestampStatus : string
}.

(** [PDFInfo], restricted to its digital-signature fields: the functions
    embedded here neither read nor write any other field. *)
Record PDFInfo := {
  HasDigitalSignatures : bool;
  SignatureCount : Z;
  Signatures : list DigitalSignatureInfo
}.

(** [&PDFInfo{}] as [AnalyzePDF] creates it. *)
Definition newPDFInfo : PDFInfo :=
  {| HasDigitalSignatures := false; SignatureCount := 0; Signatures := [] |}.

Definition setHasDigitalSignatures (b : bool) (info : PDFInfo) : PDFInfo :=
  {| HasDigitalSignatures := b;
     SignatureCount := SignatureCount info;
     Signatures := Signatures info |}.

Definition setSignatureCount (n : Z) (info : PDFInfo) : PDFInfo :=
  {| HasDigitalSignatures := HasDigitalSignatures info;
     SignatureCount := n;
     Signatures := Signatures info |}.

Definition setSignatures (l : list DigitalSignatureInfo) (info : PDFInfo) : PDFInfo :=
  {| HasDigitalSignatures := HasDigitalSignatures info;
     SignatureCount := SignatureCount info;
     Signatures := l |}.

(** ** Structural signature locator ([signatures.go], lines 107-223 and 284-312) *)

Section structural.
Import types model.

(** [processAcroForm]: the body is a placeholder that returns 0. *)
Definition processAcroForm (ctx : Context) (acroFormObj : types.Object) (info : PDFInfo) : Z :=
  0.

(** [resolveFieldDict]; [None] is the nil dictionary. *)
Definition resolveFieldDict (ctx : Context) (fieldRef : option types.Object) : option Dict :=
  match fieldRef with
  | Some (Ref indRef) =>
      match Dereference ctx indRef with
      | Ok (Some (DictObj dict)) => Some dict
      | _ => None
      end
  | Some (DictObj dict) => Some dict
  | _ => None
  end.

(** [isSignatureField]. *)
Definition isSignatureField (fieldDict : option Dict) : bool :=
  match fieldDict with
  | None => false
  | Some d =>
      let '(ftObj, found) := Entry d "FT" in
      if found && isName ftObj "Sig" then true else false
  end.

(** [hasSignatureIndicators]. *)
Definition hasSignatureIndicators (ctx : Context) : bool :=
  match RootDict ctx with
  | None => false
  | Some root =>
      match Entry root "AcroForm" with
      | (Some acroFormObj, true) =>
          match acroFormObj with
          | Ref indRef =>
              match Dereference ctx indRef with
              | Ok (Some (DictObj dict)) =>
                  match Entry dict "SigFlags" with
                  | (Some _, true) => true
                  | _ => false
                  end
              | _ => false
              end
          | DictObj dict =>
              match Entry dict "SigFlags" with
              | (Some _, true) => true
              | _ => false
              end
          | _ => false
          end
      | _ => false
      end
  end.

(** The third check of the cross-reference scan: a [V] entry that is an
    indirect reference to a dictionary whose [Filter] names a signature
    handler. *)
Definition valueIsSignatureDict (ctx : Context) (dict : Dict) : bool :=
  match Entry dict "V" with
  | (Some (Ref indRef), true) =>
      match Dereference ctx indRef with
      | Ok (Some (DictObj sigDictTyped)) =>
          match Entry sigDictTyped "Filter" with
          | (Some (Name filter), true) =>
              String.eqb filter "Adobe.PPKLite"
              || String.eqb filter "Adobe.PPKMS"
              || strings.Contains filter "PKCS"
          | _ => false
          end
      | _ => false
      end
  | _ => false
  end.

(** The body of [for i := 1; i <= *ctx.XRefTable.Size; i++]. *)
Definition scanTableEntry (ctx : Context) (xRefTable : XRefTable)
    (signatureCount : Z) (i : Z) : Z :=
  match FindTableEntry xRefTable i 0 with
  | None => signatureCount
  | Some entry =>
      match Object entry with
      | Some (DictObj dict) =>
          let signatureCount :=
            match Entry dict "Type" with
            | (typeObj, true) =>
                if isName typeObj "Sig" then signatureCount + 1 else signatureCount
            | _ => signatureCount
            end in
          let signatureCount :=
            match Entry dict "FT" with
            | (ftObj, true) =>
                if isName ftObj "Sig" then signatureCount + 1 else signatureCount
            | _ => signatureCount
            end in
          if valueIsSignatureDict ctx dict then signatureCount + 1 else signatureCount
      | _ => signatureCount
      end
  end.

(** Method 2 of [detectSignatureFields]. *)
Definition scanXRefTable (ctx : Context) : Z :=
  match XRefTable_ ctx with
  | None => 0
  | Some xRefTable =>
      fold_left (scanTableEntry ctx xRefTable) (seqZ 1 (Size xRefTable)) 0
  end.

(** The locals [signatureFound] and [signatureCount] of
    [detectSignatureFields] when its last [if] is reached (lines 113-180). *)
Definition locatorEstimate (ctx : Context) (root : Dict) (info : PDFInfo) : bool * Z :=
  let signatureFound :=
    match Entry root "AcroForm" with
    | (Some acroFormObj, true) =>
        if 0 <? processAcroForm ctx acroFormObj info then true else false
    | _ => false
    end in
  let signatureCount := scanXRefTable ctx in
  let signatureCount :=
    if negb signatureFound && (signatureCount =? 0) then
      if hasSignatureIndicators ctx then 1 else signatureCount
    else signatureCount in
  (signatureFound, signatureCount).

(** [detectSignatureFields]: the returned pair is the boolean result and
    [info] as the call leaves it. *)
Definition detectSignatureFields (ctx : option Context) (info : PDFInfo) : bool * PDFInfo :=
  match ctx with
  | None => (false, info)
  | Some ctx =>
      match RootDict ctx with
      | None => (false, info)
      | Some root =>
          let '(signatureFound, signatureCount) := locatorEstimate ctx root info in
          if (0 <? signatureCount) || signatureFound then
            let info := setHasDigitalSignatures true info in
            let info :=
              if SignatureCount info <? signatureCount
              then setSignatureCount signatureCount info
              else info in
            (true, info)
          else (false, info)
      end
  end.

End structural.

(** ** The AcroForm walk of the single-file build ([pdf-info.go], lines 1478-1650) *)

(** The repository also ships the program as one file, [pdf-info.go]; its
    [processAcroForm] walks the fields.  It is embedded here to be compared
    with the placeholder of [signatures.go]. *)
Module Monolith.
Import types model.

(** [resolveFieldDict]. *)
Definition resolveFieldDict (ctx : Context) (fieldRef : option types.Object) : option Dict :=
  let fieldRef :=
    match fieldRef with
    | Some (Ref indRef) =>
        match Dereference ctx indRef with
        | Err _ => None
        | Ok resolvedObj => Some resolvedObj
        end
    | _ => Some fieldRef
    end in
  match fieldRef with
  | Some (Some (DictObj fieldDict)) => Some fieldDict
  | _ => None
  end.

(** [isSignatureField]. *)
Definition isSignatureField (fieldDict : Dict) : bool :=
  if match Entry fieldDict "FT" with
     | (Some (Name fieldType), true) => String.eqb fieldType "Sig"
     | _ => false
     end
  then true
  else if match Entry fieldDict "Subtype" with
          | (Some (Name subtype), true) =>
              (String.eqb subtype "Widget" || String.eqb subtype "Signature")
              && (match Entry fieldDict "V" with
                  | (Some _, true) => true
                  | _ => false
                  end
                  || match Entry fieldDict "SigFlags" with
                     | (Some _, true) => true
                     | _ => false
                     end)
          | _ => false
          end
  then true
  else match Entry fieldDict "V" with
       | (Some (DictObj _), true) => true
       | (Some (Ref _), true) => true
       | _ => false
       end.

(** The loop over [fieldsArray]. *)
Definition countFields (ctx : Context) (fieldsArray : Array) : Z :=
  fold_left
    (fun signatureCount fieldRef =>
       match resolveFieldDict ctx fieldRef with
       | None => signatureCount
       | Some fieldDict =>
           if isSignatureField fieldDict then signatureCount + 1 else signatureCount
       end)
    fieldsArray 0.

(** [processAcroForm]: the count returned and [info] as the call leaves
    it. *)
Definition processAcroForm (ctx : Context) (acroFormObj : types.Object) (info : PDFInfo)
    : Z * PDFInfo :=
  match acroFormObj with
  | DictObj acroFormDict =>
      match Entry acroFormDict "Fields" with
      | (Some fieldsObj, true) =>
          let fieldsObj :=
            match fieldsObj with
            | Ref indRef => Dereference ctx indRef
            | _ => Ok (Some fieldsObj)
            end in
          match fieldsObj with
          | Ok (Some (ArrayObj fieldsArray)) =>
              let signatureCount := countFields ctx fieldsArray in
              if 0 <? signatureCount
              then (signatureCount,
                    setSignatureCount signatureCount (setHasDigitalSignatures true info))
              else (signatureCount, info)
          | _ => (0, info)
          end
      | _ => (0, info)
      end
  | _ => (0, info)
  end.

End Monolith.

(** ** The environment of one analysis *)

(** [model.SignatureValidationResult] of pdfcpu, through the fields the
    code reads.  [Time] stands for a [time.Time] value: the code only asks
    whether it is zero and formats it with the layout
    [2006-01-02 15:04:05]; [Certified] is the result of the method
    [Certified()]. *)
Record Time := { IsZero : bool; Format : string }.

Record SignatureDetails := {
  dFieldName : string;
  dSubFilter : string;
  dSignerName : string;
  dSigningTime : Time;
  dLocation : string;
  dReason : string;
  dContactInfo : string
}.

Record SignatureValidationResult := {
  Details : SignatureDetails;
  Status_ : Z;
  Problems : list string;
  Certified : bool
}.

(** What the program observes of the outside during one analysis:
    [ioutil.ReadFile] and pdfcpu's [api.ValidateSignatures(path, true, nil)].
    The file is not modified while it is analysed, so every read of a path
    gives the same outcome. *)
Record World := {
  ReadFile : string -> result string;
  ValidateSignatures : string -> result (list SignatureValidationResult)
}.

(** [detectSignaturesByteAnalysis]: [Err] is the non-nil error result. *)
Definition detectSignaturesByteAnalysis (w : World) (filePath : string) : result (bool * Z) :=
  match ReadFile w filePath with
  | Err e => Err e
  | Ok data => Ok (scanSignatureBytes data)
  end.

(** [formatTime]. *)
Definition formatTime (t : Time) : string :=
  if IsZero t then "" else Format t.

(** ** Timestamp detection ([timestamp_analysis.go]) *)

Section timestamps.
Import strings.

Definition timestampPatterns : list string :=
  [ "/SubFilter/ETSI.RFC3161";
    "/SubFilter/adbe.pkcs7.detached";
    "/M(D:";
    "/TS";
    "1.2.840.113549.1.9.16.1.4";
    "TimeStampToken";
    "TSATimeStamp";
    "timestampToken";
    "/Type/TSA";
    "Serpro";
    "Assinador Serpro";
    "ICP-Brasil";
    "AC Timestamping";
    "Carimbo";
    "D:20";
    "/ByteRange" ].

Definition timePatterns : list string := [ "D:202"; "D:201" ].

Definition authorityPatterns : list string :=
  [ "CN=";
    "O=";
    "TSA";
    "TimeStamp";
    "Serpro";
    "Assinador Serpro";
    "ICP-Brasil";
    "AC Timestamping";
    "Autoridade Certificadora";
    "Certificate Authority" ].

(** Reading [m[key]] of a Go map: the zero value when the key is absent
    (also when the map is nil). *)
Definition get (m : gmap string string) (key : string) : string :=
  default "" (m !! key).

(** The [if / else if] chain on the matched pattern (lines 65-79). *)
Definition timestampTypeOf (pattern : string) : string :=
  if Contains pattern "RFC3161" then "RFC3161"
  else if Contains pattern "adbe.pkcs7" then "PKCS#7"
  else if Contains pattern "TSA" then "TSA"
  else if Contains pattern "Serpro" || Contains pattern "Assinador Serpro" then "Serpro TSA"
  else if Contains pattern "ICP-Brasil" then "ICP-Brasil"
  else if Contains pattern "ByteRange" then "Embedded"
  else "Standard".

(** The first loop: the first pattern contained in [content] sets
    [hasTimestamp] and the type, and the loop is left. *)
Fixpoint scanTimestampPatterns (content : string) (patterns : list string)
    (timestampInfo : gmap string string) : bool * gmap string string :=
  match patterns with
  | [] => (false, timestampInfo)
  | pattern :: rest =>
      if Contains content pattern
      then (true, <["type" := timestampTypeOf pattern]> timestampInfo)
      else scanTimestampPatterns content rest timestampInfo
  end.

(** The value stored under ["time"] for the candidate [timestampStr]
    (lines 102-121). *)
Definition formatTimestamp (timestampStr : string) : string :=
  if 15 <=? len timestampStr then
    let rawTime := timestampStr in
    if HasPrefix rawTime "D:" && (15 <=? len rawTime) then
      let year := slice rawTime 2 6 in
      let month := slice rawTime 6 8 in
      let day := slice rawTime 8 10 in
      let hour := slice rawTime 10 12 in
      let minute := slice rawTime 12 14 in
      let second := if 16 <=? len rawTime then slice rawTime 14 16 else "00" in
      year +:+ "-" +:+ month +:+ "-" +:+ day +:+ " "
           +:+ hour +:+ ":" +:+ minute +:+ ":" +:+ second
    else slice rawTime 0 15
  else timestampStr.

(** The loop over [timePatterns] (lines 92-124). *)
Fixpoint extractTime (content : string) (patterns : list string)
    (timestampInfo : gmap string string) : gmap string string :=
  match patterns with
  | [] => timestampInfo
  | timePattern :: rest =>
      let idx := Index content timePattern in
      if negb (idx =? -1) then
        let endIdx := idx + 20 in
        let endIdx := if len content <? endIdx then len content else endIdx in
        let timestampStr := slice content idx endIdx in
        <["time" := formatTimestamp timestampStr]> timestampInfo
      else extractTime content rest timestampInfo
  end.

Definition newline : string := String (Ascii.ascii_of_nat 10) EmptyString.
Definition nullByte : string := String (Ascii.ascii_of_nat 0) EmptyString.

(** The value stored under ["authority"] for the candidate [authStr]
    (lines 149-167). *)
Definition cleanAuthority (authStr : string) : string :=
  let authStr :=
    let newlineIdx := Index authStr newline in
    if negb (newlineIdx =? -1) then slice authStr 0 newlineIdx else authStr in
  let authStr :=
    let nullIdx := Index authStr nullByte in
    if negb (nullIdx =? -1) then slice authStr 0 nullIdx else authStr in
  if Contains authStr "Serpro" || Contains authStr "Assinador Serpro" then
    "Serpro - ServiÃ§o Federal de Processamento de Dados"
  else if Contains authStr "ICP-Brasil" then
    "ICP-Brasil Certificate Authority"
  else
    if 40 <? len authStr then slice authStr 0 40 +:+ "..." else authStr.

(** The loop over [authorityPatterns] (lines 140-170). *)
Fixpoint extractAuthority (content : string) (patterns : list string)
    (timestampInfo : gmap string string) : gmap string string :=
  match patterns with
  | [] => timestampInfo
  | authPattern :: rest =>
      let idx := Index content authPattern in
      if negb (idx =? -1) then
        let endIdx := idx + 80 in
        let endIdx := if len content <? endIdx then len content else endIdx in
        let authStr := slice content idx endIdx in
        <["authority" := cleanAuthority authStr]> timestampInfo
      else extractAuthority content rest timestampInfo
  end.

(** The body of [detectTimestampByteAnalysis] after the file was read. *)
Definition scanTimestampBytes (content : string) : bool * gmap string string :=
  let '(hasTimestamp, timestampInfo) :=
    scanTimestampPatterns content timestampPatterns ∅ in
  if hasTimestamp then
    let timestampInfo := extractTime content timePatterns timestampInfo in
    let timestampInfo := extractAuthority content authorityPatterns timestampInfo in
    let timestampInfo :=
      if String.eqb (get timestampInfo "time") ""
      then <["time" := "Unknown"]> timestampInfo else timestampInfo in
    let timestampInfo :=
      if String.eqb (get timestampInfo "authority") ""
      then <["authority" := "Unknown"]> timestampInfo else timestampInfo in
    (hasTimestamp, timestampInfo)
  else (hasTimestamp, timestampInfo).

(** [detectTimestampByteAnalysis]: a failed read answers [(false, nil)];
    the nil map reads like the empty one. *)
Definition detectTimestampByteAnalysis (w : World) (filePath : string)
    : bool * gmap string string :=
  match ReadFile w filePath with
  | Err _ => (false, ∅)
  | Ok data => scanTimestampBytes data
  end.

Definition setTimestamp (has : bool) (type time authority status : string)
    (sigInfo : DigitalSignatureInfo) : DigitalSignatureInfo :=
  {| Type_ := Type_ sigInfo;
     SubFilter := SubFilter sigInfo;
     SignerName := SignerName sigInfo;
     SigningTime := SigningTime sigInfo;
     Location := Location sigInfo;
     Reason := Reason sigInfo;
     ContactInfo := ContactInfo sigInfo;
     FieldName := FieldName sigInfo;
     IsValid := IsValid sigInfo;
     IsCertified := IsCertified sigInfo;
     Status := Status sigInfo;
     ValidationErrors := ValidationErrors sigInfo;
     HasTimestamp := has;
     TimestampType := type;
     TimestampTime := time;
     TimestampAuthority := authority;
     TimestampStatus := status |}.

(** [analyzeTimestamp]. *)
Definition analyzeTimestamp (w : World) (filePath : string)
    (sigInfo : DigitalSignatureInfo) : DigitalSignatureInfo :=
  let sigInfo := setTimestamp false "" "" "" "None" sigInfo in
  let '(hasTimestamp, timestampInfo) := detectTimestampByteAnalysis w filePath in
  if hasTimestamp then
    setTimestamp true
      (get timestampInfo "type")
      (get timestampInfo "time")
      (get timestampInfo "authority")
      "Present" sigInfo
  else sigInfo.

End timestamps.

(** ** Signature reconciliation ([signatures.go], lines 14-105) *)

(** The record built for one validation result (lines 66-101). *)
Definition signatureRecord (w : World) (filePath : string)
    (result : SignatureValidationResult) : DigitalSignatureInfo :=
  let sigInfo :=
    {| FieldName := dFieldName (Details result);
       SubFilter := dSubFilter (Details result);
       SignerName := dSignerName (Details result);
       SigningTime := formatTime (dSigningTime (Details result));
       Location := dLocation (Details result);
       Reason := dReason (Details result);
       ContactInfo := dContactInfo (Details result);
       IsCertified := Certified result;
       IsValid := Status_ result =? 1;
       Status :=
         if Status_ result =? 1 then "Valid"
         else if Status_ result =? 2 then "Invalid"
         else "Unknown";
       ValidationErrors :=
         if 0 <? Z.of_nat (length (Problems result)) then Problems result else [];
       Type_ := if Certified result then "Certified" else "Approval";
       HasTimestamp := false;
       TimestampType := "";
       TimestampTime := "";
       TimestampAuthority := "";
       TimestampStatus := "" |} in
  analyzeTimestamp w filePath sigInfo.

(** Lines 20-30: the byte scan, run only when the structural locator found
    nothing.  The state is [hasSignatureFields] and [info]. *)
Definition byteScanStage (w : World) (filePath : string)
    (st : bool * PDFInfo) : bool * PDFInfo :=
  let '(hasSignatureFields, info) := st in
  if negb hasSignatureFields then
    match detectSignaturesByteAnalysis w filePath with
    | Err _ => (hasSignatureFields, info)
    | Ok (hasRawSignatures, rawCount) =>
        if hasRawSignatures
        then (true, setSignatureCount rawCount (setHasDigitalSignatures true info))
        else (hasSignatureFields, info)
    end
  else (hasSignatureFields, info).

(** Lines 37-44 and 49-56: what is reported without validation results. *)
Definition coarseVerdict (hasSignatureFields : bool) (info : PDFInfo) : PDFInfo :=
  if hasSignatureFields then setHasDigitalSignatures true info
  else setSignatureCount 0 (setHasDigitalSignatures false info).

(** The body of [for _, result := range results]: one record is appended
    to [info.Signatures]. *)
Definition collect (w : World) (filePath : string)
    (info : PDFInfo) (result : SignatureValidationResult) : PDFInfo :=
  setSignatures (Signatures info ++ [signatureRecord w filePath result]) info.

(** Lines 32-104: the validation call and what follows it. *)
Definition validationStage (w : World) (filePath : string)
    (st : bool * PDFInfo) : PDFInfo :=
  let '(hasSignatureFields, info) := st in
  match ValidateSignatures w filePath with
  | Err _ => coarseVerdict hasSignatureFields info
  | Ok results =>
      if Z.of_nat (length results) =? 0 then coarseVerdict hasSignatureFields info
      else
        let info := setHasDigitalSignatures true info in
        let info := setSignatureCount (Z.of_nat (length results)) info in
        let info := setSignatures [] info in
        fold_left (collect w filePath) results info
  end.

(** [analyzeDigitalSignatures]. *)
Definition analyzeDigitalSignatures (w : World) (filePath : string)
    (ctx : option model.Context) (info : PDFInfo) : PDFInfo :=
  validationStage w filePath
    (byteScanStage w filePath (detectSignatureFields ctx info)).

(** ** The aggregation rule of the byte scan, in the specification's words *)

(** The corroborating patterns: every pattern of the list other than the
    two authoritative ones. *)
Definition corroboratingPatterns : list string :=
  [ "/SigFlags";
    "Adobe.PPKLite";
    "Adobe.PPKMS";
    "PKCS#7";
    "pkcs7";
    "/ByteRange";
    "/Contents<";
    "/SubFilter/adbe.pkcs7.detached";
    "/SubFilter/adbe.pkcs7.sha1";
    "/SubFilter/ETSI.CAdES.detached";
    "/Filter/Adobe.PPKLite";
    "/Filter/Adobe.PPKMS" ].

(** A pattern that is neither authoritative nor empty. *)
Definition corroborates (pattern : string) : bool :=
  negb (String.eqb pattern "/Type/Sig" || String.eqb pattern "/FT/Sig")
  && negb (String.eqb pattern "").

(** The count the specification prescribes for the bytes [content]. *)
Definition specifiedCount (content : string) : Z :=
  let authoritative :=
    strings.Count content "/Type/Sig" + strings.Count content "/FT/Sig" in
  if authoritative =? 0 then
    if existsb (strings.Contains content) corroboratingPatterns then 1
    else if existsb (strings.Contains content) ["/Sig"; "<</Type/Sig"; "<</FT/Sig"] then 1
    else 0
  else authoritative.

(** ** The AcroForm field walk, in the specification's words *)

Section specified_walk.
Import types model.

(** Whether [obj] is a dictionary, directly or through one indirect
    reference. *)
Definition resolvesToDict (ctx : Context) (obj : option types.Object) : bool :=
  match obj with
  | Some (DictObj _) => true
  | Some (Ref r) =>
      match Dereference ctx r with
      | Ok (Some (DictObj _)) => true
      | _ => false
      end
  | _ => false
  end.

Definition present (e : option types.Object * bool) : bool :=
  match e with
  | (Some _, true) => true
  | _ => false
  end.

(** A field is a signature field if its [FT] is [Sig], or its [Subtype]
    is [Widget] or [Signature] and it carries [V] or [SigFlags], or it
    carries a [V] that dereferences to a dictionary. *)
Definition specifiedSignatureField (ctx : Context) (field : Dict) : bool :=
  isName (fst (Entry field "FT")) "Sig"
  || ((isName (fst (Entry field "Subtype")) "Widget"
       || isName (fst (Entry field "Subtype")) "Signature")
      && (present (Entry field "V") || present (Entry field "SigFlags")))
  || resolvesToDict ctx (fst (Entry field "V")).

Definition countSpecifiedFields (ctx : Context) (fields : Array) : Z :=
  Z.of_nat
    (length
       (List.filter
          (fun f =>
             match resolveFieldDict ctx f with
             | Some d => specifiedSignatureField ctx d
             | None => false
             end)
          fields)).

(** The count the first strategy is specified to contribute: the
    [Fields] array is resolved through at most one indirect reference. *)
Definition specifiedFieldCount (ctx : Context) (acroFormObj : types.Object) : Z :=
  match acroFormObj with
  | DictObj d =>
      match Entry d "Fields" with
      | (Some (ArrayObj a), true) => countSpecifiedFields ctx a
      | (Some (Ref r), true) =>
          match Dereference ctx r with
          | Ok (Some (ArrayObj a)) => countSpecifiedFields ctx a
          | _ => 0
          end
      | _ => 0
      end
  | _ => 0
  end.

End specified_walk.

(** ** The recorded count along one pass *)

(** The values of [info.SignatureCount] at the successive points of one
    call of [analyzeDigitalSignatures]: on entry, after the structural
    locator, after the byte-scan stage, and on return. *)
Definition countHistory (w : World) (filePath : string)
    (ctx : option model.Context) (info : PDFInfo) : list Z :=
  let located := detectSignatureFields ctx info in
  let scanned := byteScanStage w filePath located in
  [ SignatureCount info;
    SignatureCount (snd located);
    SignatureCount (snd scanned);
    SignatureCount (validationStage w filePath scanned) ].

Fixpoint neverDecreases (counts : list Z) : bool :=
  match counts with
  | x :: rest =>
      match rest with
      | y :: _ => (x <=? y) && neverDecreases rest
      | [] => true
      end
  | [] => true
  end.

(** ** The timestamp type label, in the specification's words *)

(** Substring tests on the matched pattern, in the order RFC3161,
    adbe.pkcs7, TSA, Serpro, ICP-Brasil, ByteRange; otherwise Standard. *)
Definition specifiedTypeLabel (pattern : string) : string :=
  if strings.Contains pattern "RFC3161" then "RFC3161"
  else if strings.Contains pattern "adbe.pkcs7" then "PKCS#7"
  else if strings.Contains pattern "TSA" then "TSA"
  else if strings.Contains pattern "Serpro" then "Serpro TSA"
  else if strings.Contains pattern "ICP-Brasil" then "ICP-Brasil"
  else if strings.Contains pattern "ByteRange" then "Embedded"
  else "Standard".

(** The two defaults at the end of the scan (lines 172-178), as a function
    of the map built so far. *)
Definition withDefaults (m : gmap string string) : gmap string string :=
  let m := if String.eqb (get m "time") "" then <["time" := "Unknown"]> m else m in
  if String.eqb (get m "authority") "" then <["authority" := "Unknown"]> m else m.

(** None of [patterns] occurs in [content]. *)
Definition occursNone (content : string) (patterns : list string) : bool :=
  forallb (fun pattern => negb (strings.Contains content pattern)) patterns.

(** The date markers: those of the timestamp list and the time patterns. *)
Definition dateMarkers : list string := [ "/M(D:"; "D:20"; "D:202"; "D:201" ].

(** The timestamp part of a signature record. *)
Definition timestampOf (sigInfo : DigitalSignatureInfo)
    : bool * string * string * string * string :=
  (HasTimestamp sigInfo, TimestampType sigInfo, TimestampTime sigInfo,
   TimestampAuthority sigInfo, TimestampStatus sigInfo).

(** ** Sample files and documents *)

Module Samples.
Import types model.

Definition signingTime : Time := {| IsZero := false; Format := "2025-06-06 17:42:28" |}.

Definition details (field : string) : SignatureDetails :=
  {| dFieldName := field;
     dSubFilter := "adbe.pkcs7.detached";
     dSignerName := "EVANDRO";
     dSigningTime := signingTime;
     dLocation := "Brasil";
     dReason := "Assinador Serpro";
     dContactInfo := "" |}.

(** A valid certifying signature and an approval signature of unknown
    status. *)
Definition certifying : SignatureValidationResult :=
  {| Details := details "Signature1"; Status_ := 1; Problems := []; Certified := true |}.

Definition approval : SignatureValidationResult :=
  {| Details := details "Signature2"; Status_ := 0;
     Problems := ["certificate chain not trusted"]; Certified := false |}.

(** A world in which the file holds [content] and validation answers
    [validation]. *)
Definition world (content : result string)
    (validation : result (list SignatureValidationResult)) : World :=
  {| ReadFile := fun _ => content; ValidateSignatures := fun _ => validation |}.

Definition blocked : result (list SignatureValidationResult) :=
  Err "pdfcpu: this file is encrypted".

(** Raw bytes with two [/Type/Sig] markers and one [/FT/Sig] marker. *)
Definition threeMarkers : string :=
  "1 0 obj<</FT/Sig/V 2 0 R>>endobj 2 0 obj<</Type/Sig>>endobj 3 0 obj<</Type/Sig>>endobj".

(** Raw bytes with a Serpro marker and a PDF date. *)
Definition serproStamped : string :=
  "<</Reason(Assinador Serpro)/Date(D:20250606155827-03'00')>>".

(** Raw bytes whose only marker is [/ByteRange]. *)
Definition byteRangeOnly : string := "<</ByteRange[0 840 9034 512]>>".

(** Raw bytes of a signature dictionary: a PKCS#7 subfilter before
    [/ByteRange], no authority and no date. *)
Definition subFilterThenByteRange : string :=
  "<</Type/Sig/SubFilter/adbe.pkcs7.detached/ByteRange[0 840 9034 512]>>".

(** Raw bytes with a PKCS#7 subfilter, a Serpro marker and a PDF date. *)
Definition serproWithSubFilter : string :=
  "<</SubFilter/adbe.pkcs7.detached/Reason(Assinador Serpro)/Date(D:20250606155827-03'00')>>".

Definition plain : string := "%PDF-1.4 1 0 obj<</Pages 2 0 R>>endobj".

(** A document whose AcroForm lists one signature field, given directly. *)
Definition sigField : Dict := [("FT", Some (Name "Sig")); ("T", Some (StringLiteral "Signature1"))].

Definition acroForm : types.Object :=
  DictObj [("Fields", Some (ArrayObj [Some (DictObj sigField)]))].

Definition formDocument : Context :=
  {| RootDict := Some [("Type", Some (Name "Catalog")); ("AcroForm", Some acroForm)];
     XRefTable_ := None;
     Dereference := fun _ => Err "unresolved" |}.

(** A document with one signed field: object 1 is the field, object 2 its
    signature dictionary. *)
Definition signedField : types.Object :=
  DictObj [("FT", Some (Name "Sig"));
           ("V", Some (Ref {| ObjectNumber := 2; GenerationNumber := 0 |}))].

Definition signatureDict : types.Object :=
  DictObj [("Type", Some (Name "Sig")); ("Filter", Some (Name "Adobe.PPKLite"))].

Definition objectAt (objNr : Z) : option types.Object :=
  if objNr =? 1 then Some signedField
  else if objNr =? 2 then Some signatureDict
  else None.

Definition signedDocument : Context :=
  {| RootDict := Some [("Type", Some (Name "Catalog"))];
     XRefTable_ :=
       Some {| Size := 3;
               FindTableEntry := fun objNr _ =>
                 match objectAt objNr with
                 | Some o => Some {| Object := Some o |}
                 | None => None
                 end |};
     Dereference := fun r => Ok (objectAt (ObjectNumber r)) |}.

End Samples.

(** ** Human-readable sizes ([utils.go], lines 26-37) *)

(** The value of an [int64] computation carried out in [Z]: it wraps
    around modulo [2^64]. *)
Definition wrap64 (z : Z) : Z := (z + 2 ^ 63) mod 2 ^ 64 - 2 ^ 63.

(** The loop [for n := bytes / unit; n >= unit; n /= unit { div *= unit;
    exp++ }] of [formatFileSize], from the state [(n, div, exp)]; the
    result is the final [(div, exp)].  Every round divides [n] by 1024, so
    the loop ends within [log2 n] rounds, the [fuel] it is given below. *)
Fixpoint unitLoop (fuel : nat) (n div exp : Z) : Z * Z :=
  if 1024 <=? n then
    match fuel with
    | S fuel' => unitLoop fuel' (Z.quot n 1024) (wrap64 (div * 1024)) (exp + 1)
    | O => (div, exp)
    end
  else (div, exp).

(** What [formatFileSize] hands to [fmt.Sprintf]: the format
    ["%d B"] with [bytes], or the format ["%.1f %cB"] with the quotient
    [float64(bytes)/float64(div)] and the unit letter.  The floating-point
    quotient and its rounding to one decimal are not computed here.
    [IndexOutOfRange] is the run-time panic of ["KMGTPE"[exp]]. *)
Inductive SizeText :=
| PlainBytes (bytes : Z)
| ScaledBytes (bytes div : Z) (unit : Ascii.ascii)
| IndexOutOfRange.

(** [formatFileSize], for an [int64] argument. *)
Definition formatFileSize (bytes : Z) : SizeText :=
  if bytes <? 1024 then PlainBytes bytes
  else
    let n := Z.quot bytes 1024 in
    let '(div, exp) := unitLoop (Z.to_nat (Z.log2 n)) n 1024 0 in
    if exp <? 0 then IndexOutOfRange
    else match String.get (Z.to_nat exp) "KMGTPE" with
         | Some unit => ScaledBytes bytes div unit
         | None => IndexOutOfRange
         end.

(** ** Permissions (the file of [analyzePermissions]) *)

(** The security fields of [PDFInfo] ([types.go], lines 40-50). *)
Record SecurityInfo := {
  UserPasswordSet : bool;
  OwnerPasswordSet : bool;
  PrintAllowed : bool;
  ModifyAllowed : bool;
  CopyAllowed : bool;
  AddNotesAllowed : bool;
  FillFormsAllowed : bool;
  AccessibilityAllowed : bool;
  AssembleAllowed : bool;
  PrintHighQualityAllowed : bool
}.

(** Modelled from the spec: [dict.Find(key)], the lookup of the external
    dictionary, and its typed accessor for integers, [dict.IntEntry(key)],
    which answers nil unless the entry is an integer. *)
Definition Find (d : types.Dict) (key : string) : option types.Object * bool :=
  types.Entry d key.

Definition IntEntry (d : types.Dict) (key : string) : option Z :=
  match Find d key with
  | (Some (types.Integer i), true) => Some i
  | _ => None
  end.

(** The test [(permissions & mask) != 0]. *)
Definition bitSet (permissions mask : Z) : bool :=
  negb (Z.land permissions mask =? 0).

(** [analyzePermissions]; [encryptDict] is the outcome of
    [ctx.EncryptDict()]. *)
Definition analyzePermissions (encryptDict : result types.Dict) (info : SecurityInfo)
    : SecurityInfo :=
  match encryptDict with
  | Err _ => info
  | Ok encDict =>
      let userPasswordSet :=
        if snd (Find encDict "U") then true else UserPasswordSet info in
      let ownerPasswordSet :=
        if snd (Find encDict "O") then true else OwnerPasswordSet info in
      match IntEntry encDict "P" with
      | Some permissions =>
          {| UserPasswordSet := userPasswordSet;
             OwnerPasswordSet := ownerPasswordSet;
             PrintAllowed := bitSet permissions 4;
             ModifyAllowed := bitSet permissions 8;
             CopyAllowed := bitSet permissions 16;
             AddNotesAllowed := bitSet permissions 32;
             FillFormsAllowed := bitSet permissions 256;
             AccessibilityAllowed := bitSet permissions 512;
             AssembleAllowed := bitSet permissions 1024;
             PrintHighQualityAllowed := bitSet permissions 2048 |}
      | None =>
          {| UserPasswordSet := userPasswordSet;
             OwnerPasswordSet := ownerPasswordSet;
             PrintAllowed := true;
             ModifyAllowed := true;
             CopyAllowed := true;
             AddNotesAllowed := true;
             FillFormsAllowed := true;
             AccessibilityAllowed := true;
             AssembleAllowed := true;
             PrintHighQualityAllowed := true |}
      end
  end.

(** An encryption dictionary with a permission word, and a record with
    nothing set. *)
Definition sampleEncryptDict : types.Dict :=
  [ ("Filter", Some (types.Name "Standard"));
    ("O", Some (types.StringLiteral "owner-key"));
    ("U", Some (types.StringLiteral "user-key"));
    ("P", Some (types.Integer (-3052))) ].

Definition noSecurityInfo : SecurityInfo :=
  {| UserPasswordSet := false; OwnerPasswordSet := false;
     PrintAllowed := false; ModifyAllowed := false; CopyAllowed := false;
     AddNotesAllowed := false; FillFormsAllowed := false;
     AccessibilityAllowed := false; AssembleAllowed := false;
     PrintHighQualityAllowed := false |}.

(** ** The signature section of the report ([printDigitalSignatures]) *)

(** Standard output is modelled by the list of the texts written, one per
    call of [fmt.Println] or [fmt.Printf], each without the newline that
    ends it. *)

(** [boolToYesNo] ([utils.go], lines 40-46). *)
Definition boolToYesNo (b : bool) : string := if b then "Yes" else "No".

(** The verb [%d] of [fmt]. *)
Definition formatInt (z : Z) : string := NilZero.string_of_int (Z.to_int z).

(** [strings.Repeat(s, count)]. *)
Fixpoint Repeat (s : string) (count : nat) : string :=
  match count with
  | O => ""
  | S count' => s +:+ Repeat s count'
  end.

(** A line written only when [value != ""]. *)
Definition lineUnlessEmpty (label value : string) : list string :=
  if String.eqb value "" then [] else [label +:+ value].

(** The timestamp lines of one signature (lines 198-213). *)
Definition timestampLines (sig : DigitalSignatureInfo) : list string :=
  ["    Has timestamp: " +:+ boolToYesNo (HasTimestamp sig)]
  ++ (if HasTimestamp sig then
        lineUnlessEmpty "    Timestamp type: " (TimestampType sig)
        ++ lineUnlessEmpty "    Timestamp time: " (TimestampTime sig)
        ++ lineUnlessEmpty "    Timestamp authority: " (TimestampAuthority sig)
        ++ lineUnlessEmpty "    Timestamp status: " (TimestampStatus sig)
      else []).

(** The body of [for i, sig := range info.Signatures] (lines 171-220). *)
Definition signatureLines (i : nat) (sig : DigitalSignatureInfo) : list string :=
  [newline +:+ "  Signature " +:+ formatInt (Z.of_nat i + 1) +:+ ":"]
  ++ lineUnlessEmpty "    Field: " (FieldName sig)
  ++ ["    Type: " +:+ Type_ sig]
  ++ lineUnlessEmpty "    SubFilter: " (SubFilter sig)
  ++ ["    Status: " +:+ Status sig;
      "    Valid: " +:+ boolToYesNo (IsValid sig);
      "    Certified: " +:+ boolToYesNo (IsCertified sig)]
  ++ lineUnlessEmpty "    Signer: " (SignerName sig)
  ++ lineUnlessEmpty "    Signing date/time: " (SigningTime sig)
  ++ lineUnlessEmpty "    Location: " (Location sig)
  ++ lineUnlessEmpty "    Reason: " (Reason sig)
  ++ lineUnlessEmpty "    Contact: " (ContactInfo sig)
  ++ timestampLines sig
  ++ (if 0 <? Z.of_nat (length (ValidationErrors sig))
      then "    Validation issues:"
           :: List.map (fun err => "      - " +:+ err) (ValidationErrors sig)
      else []).

(** The loop over [info.Signatures], from index [i]. *)
Fixpoint signatureBlocks (i : nat) (sigs : list DigitalSignatureInfo) : list string :=
  match sigs with
  | [] => []
  | sig :: rest => signatureLines i sig ++ signatureBlocks (S i) rest
  end.

(** The four lines every report starts with (lines 163-166). *)
Definition signatureSummary (info : PDFInfo) : list string :=
  [ newline +:+ "🔐 DIGITAL SIGNATURES";
    Repeat "-" 50;
    "Document has signatures: " +:+ boolToYesNo (HasDigitalSignatures info);
    "Number of signatures: " +:+ formatInt (SignatureCount info) ].

(** Lines 223-229: signatures detected, no details. *)
Definition detectedNote (info : PDFInfo) : list string :=
  [ newline +:+ "Digital signature(s) detected in document.";
    "Found " +:+ formatInt (SignatureCount info)
      +:+ " signature(s), but detailed validation failed due to encryption or security restrictions.";
    newline +:+ "Signature validation requires:";
    "  • Document decryption (if encrypted)";
    "  • Access to signing certificates";
    "  • Valid certificate chain";
    "  • Trusted certificate authority (CA)" ].

(** Lines 231-236: no signatures. *)
Definition unsignedNote : list string :=
  [ newline +:+ "This document does not have digital signatures.";
    "To digitally sign a PDF, you can use:";
    "  • Adobe Acrobat";
    "  • LibreOffice";
    "  • Online signature tools";
    "  • ICP-Brasil digital certificates" ].

(** [printDigitalSignatures]. *)
Definition printDigitalSignatures (info : PDFInfo) : list string :=
  signatureSummary info
  ++ (if HasDigitalSignatures info && (0 <? Z.of_nat (length (Signatures info))) then
        (newline +:+ "Signature details:") :: signatureBlocks 0 (Signatures info)
      else if HasDigitalSignatures info then detectedNote info
      else unsignedNote).

(** ** The locator of the single-file build ([pdf-info.go], lines 1368-1451) *)

Module SingleFile.
Import types model.

(** [detectSignatureFields] of [pdf-info.go]: the same code as in
    [signatures.go], calling the [processAcroForm] that walks the fields
    and writes to [info]. *)
Definition detectSignatureFields (ctx : option Context) (info : PDFInfo) : bool * PDFInfo :=
  match ctx with
  | None => (false, info)
  | Some ctx =>
      match RootDict ctx with
      | None => (false, info)
      | Some root =>
          let '(signatureFound, info) :=
            match Entry root "AcroForm" with
            | (Some acroFormObj, true) =>
                let '(count, info) := Monolith.processAcroForm ctx acroFormObj info in
                (if 0 <? count then true else false, info)
            | _ => (false, info)
            end in
          let signatureCount := scanXRefTable ctx in
          let signatureCount :=
            if negb signatureFound && (signatureCount =? 0) then
              if hasSignatureIndicators ctx then 1 else signatureCount
            else signatureCount in
          if (0 <? signatureCount) || signatureFound then
            let info := setHasDigitalSignatures true info in
            let info :=
              if SignatureCount info <? signatureCount
              then setSignatureCount signatureCount info
              else info in
            (true, info)
          else (false, info)
      end
  end.

End SingleFile.

(** ** The entry point ([analyzer.go], and [analyzePDFCPU]) *)

(** What [AnalyzePDF] observes besides the [World]: the outcome of
    [getFileInfo] (of [os.Stat], [os.Open] and the two hash computations)
    and of pdfcpu's [api.ReadContextFile]. *)
Record Host := {
  world : World;
  getFileInfo : string -> result unit;
  ReadContextFile : string -> result model.Context
}.

(** [analyzePDFCPU], on the signature fields of [info]: the extraction
    steps it runs before [analyzeDigitalSignatures] write other fields
    only.  The second component is the error returned. *)
Definition analyzePDFCPU (h : Host) (filePath : string) (info : PDFInfo)
    : PDFInfo * option string :=
  match ReadContextFile h filePath with
  | Err e => (info, Some e)
  | Ok ctx => (analyzeDigitalSignatures (world h) filePath (Some ctx) info, None)
  end.

(** [AnalyzePDF], on the signature fields of the result: an error of
    [analyzePDFCPU] or of [analyzeLedongthuc] is only printed as a warning,
    and [analyzeLedongthuc] writes other fields only. *)
Definition AnalyzePDF (h : Host) (filePath : string) : result PDFInfo :=
  let info := newPDFInfo in
  match getFileInfo h filePath with
  | Err e => Err ("error getting file information: " +:+ e)
  | Ok _ =>
      let '(info, _) := analyzePDFCPU h filePath info in
      Ok info
  end.

(** * Properties *)

(** ** Facts about the string functions *)

Section string_facts.
Import strings.

Lemma Index_eq s p :
  Index s p =
  if HasPrefix s p then 0
  else match s with
       | EmptyString => -1
       | String _ s' => if Index s' p =? -1 then -1 else Index s' p + 1
       end.
Proof. destruct s; reflexivity. Qed.

Lemma countFrom_eq c s p :
  countFrom O (String c s) p =
  if HasPrefix (String c s) p
  then 1 + countFrom (Nat.pred (String.length p)) s p
  else countFrom O s p.
Proof. reflexivity. Qed.

Lemma Index_lower s p : -1 <= Index s p.
Proof.
  induction s as [|c s IH]; rewrite Index_eq.
  - destruct (HasPrefix "" p); lia.
  - destruct (HasPrefix (String c s) p); [lia|].
    destruct (Index s p =? -1); lia.
Qed.

Lemma Contains_here s p : HasPrefix s p = true -> Contains s p = true.
Proof. intros H. unfold Contains. rewrite Index_eq, H. reflexivity. Qed.

Lemma Contains_later c s p :
  HasPrefix (String c s) p = false -> Contains (String c s) p = Contains s p.
Proof.
  intros H. unfold Contains. rewrite (Index_eq (String c s)), H.
  pose proof (Index_lower s p) as Hl.
  destruct (Index s p =? -1) eqn:E.
  - apply Z.eqb_eq in E. rewrite E. reflexivity.
  - apply Z.eqb_neq in E.
    transitivity true; [|symmetry]; apply Z.leb_le; lia.
Qed.

Lemma countFrom_nonneg k s p : 0 <= countFrom k s p.
Proof.
  revert k. induction s as [|c s IH]; intros k; [simpl; lia|].
  destruct k as [|k]; [|apply IH].
  rewrite countFrom_eq.
  destruct (HasPrefix (String c s) p).
  - specialize (IH (Nat.pred (String.length p))). lia.
  - apply IH.
Qed.

(** A pattern is counted at least once exactly when it is contained. *)
Lemma Count_pos_Contains s a p :
  (0 <? Count s (String a p)) = Contains s (String a p).
Proof.
  unfold Count. induction s as [|c s IH].
  - reflexivity.
  - rewrite countFrom_eq.
    destruct (HasPrefix (String c s) (String a p)) eqn:E.
    + rewrite Contains_here by exact E.
      pose proof (countFrom_nonneg (Nat.pred (String.length (String a p))) s (String a p)).
      apply Z.ltb_lt. lia.
    + rewrite Contains_later by exact E. exact IH.
Qed.

Lemma append_cons x (a b : string) : String x a +:+ b = String x (a +:+ b).
Proof. reflexivity. Qed.

Lemma append_assoc3 (a b c : string) : (a +:+ b) +:+ c = a +:+ (b +:+ c).
Proof.
  induction a as [|x a IH]; [reflexivity|].
  rewrite !append_cons, IH. reflexivity.
Qed.

Lemma HasPrefix_iff s p : HasPrefix s p = true <-> exists rest, s = p +:+ rest.
Proof.
  revert s. induction p as [|a p IH]; intros s; simpl.
  - split; [intros _; exists s; reflexivity | reflexivity].
  - destruct s as [|b s].
    + split; [discriminate | intros [rest H]; discriminate H].
    + destruct (Ascii.eqb a b) eqn:E.
      * apply Ascii.eqb_eq in E. subst b. rewrite IH.
        split; intros [rest H]; exists rest; [rewrite H; reflexivity|].
        injection H as H. exact H.
      * apply Ascii.eqb_neq in E.
        split; [discriminate | intros [rest H]; injection H as H1 H2; congruence].
Qed.

(** [Contains] is the substring relation. *)
Lemma Contains_iff s p :
  Contains s p = true <-> exists before after, s = before +:+ (p +:+ after).
Proof.
  split.
  - induction s as [|c s IH]; intros H.
    + destruct (HasPrefix "" p) eqn:E.
      * apply HasPrefix_iff in E as [rest E]. exists "", rest. exact E.
      * unfold Contains in H. rewrite Index_eq, E in H. discriminate H.
    + destruct (HasPrefix (String c s) p) eqn:E.
      * apply HasPrefix_iff in E as [rest E]. exists "", rest. exact E.
      * rewrite Contains_later in H by exact E.
        destruct (IH H) as [before [after Hs]].
        exists (String c before), after. rewrite append_cons, Hs. reflexivity.
  - intros [before [after H]]. subst s.
    induction before as [|c before IH]; [change ("" +:+ (p +:+ after)) with (p +:+ after) | rewrite append_cons].
    + apply Contains_here. apply HasPrefix_iff. exists after. reflexivity.
    + destruct (HasPrefix (String c (before +:+ (p +:+ after))) p) eqn:E.
      * apply Contains_here. exact E.
      * rewrite Contains_later by exact E. exact IH.
Qed.

(** Whatever contains a pattern contains each of its substrings. *)
Lemma Contains_trans s p q :
  Contains s p = true -> Contains p q = true -> Contains s q = true.
Proof.
  intros Hs Hp.
  apply Contains_iff in Hs as [b1 [a1 Hs]].
  apply Contains_iff in Hp as [b2 [a2 Hp]].
  apply Contains_iff. exists (b1 +:+ b2), (a2 +:+ a1).
  rewrite Hs, Hp, !append_assoc3. reflexivity.
Qed.

Lemma Index_absent s p : Contains s p = false -> Index s p = -1.
Proof.
  unfold Contains. intros H. apply Z.leb_gt in H.
  pose proof (Index_lower s p). lia.
Qed.


(** Facts about slices. *)
Lemma substring_split n a b s :
  String.substring n (a + b) s =
  String.substring n a s +:+ String.substring (n + a) b s.
Proof.
  revert n a. induction s as [|c s IH]; intros n a.
  - destruct n, a, b; reflexivity.
  - destruct n as [|n].
    + destruct a as [|a]; [reflexivity|].
      simpl. rewrite (IH O a). reflexivity.
    + simpl. apply IH.
Qed.

Lemma substring_length_le n m s :
  (String.length (String.substring n m s) + n <= String.length s)%nat
  \/ String.substring n m s = "".
Proof.
  revert n m. induction s as [|c s IH]; intros n m.
  - right. destruct n, m; reflexivity.
  - destruct n as [|n].
    + destruct m as [|m]; [right; reflexivity|].
      left. simpl. destruct (IH O m) as [H|H]; [lia | rewrite H; simpl; lia].
    + simpl. destruct (IH n m) as [H|H]; [left; lia | right; exact H].
Qed.

Lemma length_append3 (a b : string) :
  String.length (a +:+ b) = (String.length a + String.length b)%nat.
Proof.
  induction a as [|x a IH]; [reflexivity|].
  rewrite append_cons. cbn [String.length]. rewrite IH. reflexivity.
Qed.



End string_facts.


(** ** The structural locator *)

Section locator_facts.
Import types model.

(** With the placeholder [processAcroForm] the AcroForm walk never
    reports a field. *)
Lemma locatorEstimate_found ctx root info :
  fst (locatorEstimate ctx root info) = false.
Proof.
  unfold locatorEstimate, processAcroForm. simpl.
  destruct (Entry root "AcroForm") as [[o|] [|]]; reflexivity.
Qed.

(** What a call of the locator leaves behind. *)
Lemma detectSignatureFields_cases ctx info :
  (detectSignatureFields ctx info = (false, info))
  \/ (exists estimate,
        0 < estimate
        /\ detectSignatureFields ctx info =
           (true, {| HasDigitalSignatures := true;
                     SignatureCount := Z.max (SignatureCount info) estimate;
                     Signatures := Signatures info |})).
Proof.
  unfold detectSignatureFields.
  destruct ctx as [ctx|]; [|left; reflexivity].
  destruct (RootDict ctx) as [root|]; [|left; reflexivity].
  pose proof (locatorEstimate_found ctx root info) as Hf.
  destruct (locatorEstimate ctx root info) as [found estimate].
  simpl in Hf. subst found. rewrite orb_false_r.
  destruct (0 <? estimate) eqn:E; [|left; reflexivity].
  right. exists estimate. apply Z.ltb_lt in E. split; [exact E|].
  f_equal. simpl.
  destruct (SignatureCount info <? estimate) eqn:E'.
  - apply Z.ltb_lt in E'. unfold setSignatureCount. simpl. f_equal. lia.
  - apply Z.ltb_ge in E'. unfold setHasDigitalSignatures. f_equal. lia.
Qed.

End locator_facts.

(** ** The reconciliation engine *)

Section reconciliation_facts.

(** The loop over the validation results appends one record per result
    and touches nothing else. *)
Lemma collect_records w filePath results info :
  fold_left (collect w filePath) results info =
  setSignatures (Signatures info ++ List.map (signatureRecord w filePath) results) info.
Proof.
  revert info. induction results as [|r results IH]; intros info.
  - cbn [fold_left List.map]. rewrite app_nil_r. destruct info; reflexivity.
  - cbn [fold_left List.map]. rewrite IH. unfold collect, setSignatures.
    cbn [Signatures HasDigitalSignatures SignatureCount].
    rewrite <- app_assoc. reflexivity.
Qed.

(** With at least one validation result the outcome is determined by the
    results alone. *)
Lemma validationStage_results w filePath results st :
  ValidateSignatures w filePath = Ok results ->
  results <> [] ->
  validationStage w filePath st =
  {| HasDigitalSignatures := true;
     SignatureCount := Z.of_nat (length results);
     Signatures := List.map (signatureRecord w filePath) results |}.
Proof.
  intros Hv Hne. unfold validationStage. destruct st as [found info].
  rewrite Hv.
  destruct (Z.of_nat (length results) =? 0) eqn:E.
  - apply Z.eqb_eq in E. destruct results; [congruence | cbn [length] in E; lia].
  - rewrite collect_records. reflexivity.
Qed.

(** Without validation results the outcome is the coarse verdict. *)
Lemma validationStage_blocked w filePath st :
  (forall results, ValidateSignatures w filePath = Ok results -> results = []) ->
  validationStage w filePath st = coarseVerdict (fst st) (snd st).
Proof.
  intros Hv. unfold validationStage. destruct st as [found info].
  cbn [fst snd].
  destruct (ValidateSignatures w filePath) as [results|e]; [|reflexivity].
  rewrite (Hv results eq_refl). reflexivity.
Qed.

Lemma scanSignatureBytes_flag content :
  fst (scanSignatureBytes content) = (0 <? snd (scanSignatureBytes content)).
Proof. cbv beta iota zeta delta [scanSignatureBytes fst snd]. reflexivity. Qed.

(** What the byte scan stage does to a state in which nothing was found
    so far. *)
Lemma byteScanStage_unfound w filePath info :
  byteScanStage w filePath (false, info) =
  match ReadFile w filePath with
  | Err _ => (false, info)
  | Ok data =>
      let n := snd (scanSignatureBytes data) in
      if 0 <? n
      then (true, {| HasDigitalSignatures := true;
                     SignatureCount := n;
                     Signatures := Signatures info |})
      else (false, info)
  end.
Proof.
  unfold byteScanStage, detectSignaturesByteAnalysis. cbn [negb].
  destruct (ReadFile w filePath) as [data|e]; [|reflexivity].
  pose proof (scanSignatureBytes_flag data) as Hf.
  destruct (scanSignatureBytes data) as [b n]. cbn [fst snd] in *.
  subst b. reflexivity.
Qed.

Lemma byteScanStage_found w filePath info :
  byteScanStage w filePath (true, info) = (true, info).
Proof. reflexivity. Qed.

(** What the two detection stages hand to the validation stage: either
    nothing was found and [info] is untouched, or something was found and
    [info] already reports it with a positive count. *)
Lemma detection_cases w filePath ctx info :
  (byteScanStage w filePath (detectSignatureFields ctx info) = (false, info))
  \/ (exists info',
        byteScanStage w filePath (detectSignatureFields ctx info) = (true, info')
        /\ HasDigitalSignatures info' = true
        /\ 0 < SignatureCount info'
        /\ Signatures info' = Signatures info).
Proof.
  destruct (detectSignatureFields_cases ctx info) as [H|[estimate [Hpos H]]];
    rewrite H.
  - rewrite byteScanStage_unfound.
    destruct (ReadFile w filePath) as [data|e]; [|left; reflexivity].
    cbv zeta.
    destruct (0 <? snd (scanSignatureBytes data)) eqn:E; [|left; reflexivity].
    right. eexists. split; [reflexivity|].
    apply Z.ltb_lt in E. cbn [HasDigitalSignatures SignatureCount Signatures].
    repeat split. exact E.
  - right. rewrite byteScanStage_found. eexists. split; [reflexivity|].
    cbn [HasDigitalSignatures SignatureCount Signatures].
    repeat split. lia.
Qed.

End reconciliation_facts.


(** ** Claims about the analysis result *)

(** C1.  Whatever the document, the file, the outcome of validation and
    the record passed in, the record that [analyzeDigitalSignatures] leaves
    has [HasDigitalSignatures] equal to [SignatureCount > 0]. *)
Theorem C1_flag_equals_positive_count w filePath ctx info :
  HasDigitalSignatures (analyzeDigitalSignatures w filePath ctx info)
  = (0 <? SignatureCount (analyzeDigitalSignatures w filePath ctx info)).
Proof.
  unfold analyzeDigitalSignatures.
  destruct (ValidateSignatures w filePath) as [[|r results]|e] eqn:Hv.
  3: {
    rewrite validationStage_blocked by (intros rs H; rewrite Hv in H; discriminate H).
    destruct (detection_cases w filePath ctx info) as [H|[info' [H [Hh [Hc _]]]]];
      rewrite H; cbn [fst snd coarseVerdict]; [reflexivity|].
    cbn [setHasDigitalSignatures HasDigitalSignatures SignatureCount].
    symmetry. apply Z.ltb_lt. exact Hc. }
  - rewrite validationStage_blocked
      by (intros rs H; rewrite Hv in H; injection H as <-; reflexivity).
    destruct (detection_cases w filePath ctx info) as [H|[info' [H [Hh [Hc _]]]]];
      rewrite H; cbn [fst snd coarseVerdict]; [reflexivity|].
    cbn [setHasDigitalSignatures HasDigitalSignatures SignatureCount].
    symmetry. apply Z.ltb_lt. exact Hc.
  - rewrite (validationStage_results w filePath (r :: results)) by (exact Hv || discriminate).
    cbn [HasDigitalSignatures SignatureCount]. symmetry. apply Z.ltb_lt.
    cbn [length]. lia.
Qed.

(** C2.  When validation succeeds with [N >= 1] results, the analysis
    reports signatures, the count is [N], and the detail list has exactly
    [N] records, the i-th built from the i-th result, whatever the
    structural and byte-scan stages found and whatever the record held
    before. *)
Theorem C2_validation_is_authoritative w filePath ctx info results :
  ValidateSignatures w filePath = Ok results ->
  (1 <= length results)%nat ->
  let final := analyzeDigitalSignatures w filePath ctx info in
  HasDigitalSignatures final = true
  /\ SignatureCount final = Z.of_nat (length results)
  /\ length (Signatures final) = length results
  /\ Signatures final = List.map (signatureRecord w filePath) results.
Proof.
  intros Hv Hn final. subst final. unfold analyzeDigitalSignatures.
  rewrite (validationStage_results w filePath results)
    by (exact Hv || (intros ->; cbn [length] in Hn; lia)).
  cbn [HasDigitalSignatures SignatureCount Signatures].
  rewrite List.length_map. repeat split.
Qed.

Lemma C2_validation_is_authoritative_witness :
  let final :=
    analyzeDigitalSignatures
      (Samples.world (Ok Samples.plain) (Ok [Samples.certifying; Samples.approval]))
      "signed.pdf" None newPDFInfo in
  HasDigitalSignatures final = true
  /\ SignatureCount final = 2
  /\ length (Signatures final) = 2%nat
  /\ Signatures final =
     List.map
       (signatureRecord
          (Samples.world (Ok Samples.plain) (Ok [Samples.certifying; Samples.approval]))
          "signed.pdf")
       [Samples.certifying; Samples.approval].
Proof.
  apply (C2_validation_is_authoritative
           (Samples.world (Ok Samples.plain) (Ok [Samples.certifying; Samples.approval]))
           "signed.pdf" None newPDFInfo [Samples.certifying; Samples.approval]).
  - reflexivity.
  - cbn [length]. lia.
Defined.

(** C3.  When validation errors or yields no result, a fresh analysis keeps
    the coarse verdict of the earlier stage that found evidence:
    signatures are reported, the count is the positive count that stage
    recorded (the locator's, or else the byte scan's), and the detail list
    is empty; only when neither stage found evidence it reports no
    signatures and count 0. *)
Theorem C3_blocked_validation_keeps_coarse_verdict w filePath ctx :
  (forall results, ValidateSignatures w filePath = Ok results -> results = []) ->
  let located := detectSignatureFields ctx newPDFInfo in
  let final := analyzeDigitalSignatures w filePath ctx newPDFInfo in
  match fst located, detectSignaturesByteAnalysis w filePath with
  | true, _ =>
      HasDigitalSignatures final = true
      /\ 1 <= SignatureCount final
      /\ SignatureCount final = SignatureCount (snd located)
      /\ Signatures final = []
  | false, Ok (true, rawCount) =>
      HasDigitalSignatures final = true
      /\ 1 <= SignatureCount final
      /\ SignatureCount final = rawCount
      /\ Signatures final = []
  | false, _ =>
      HasDigitalSignatures final = false /\ SignatureCount final = 0
  end.
Proof.
  intros Hv located final. subst located final. unfold analyzeDigitalSignatures.
  rewrite validationStage_blocked by exact Hv.
  destruct (detectSignatureFields_cases ctx newPDFInfo) as [H|[estimate [Hpos H]]];
    rewrite H; cbn [fst snd].
  - rewrite byteScanStage_unfound. unfold detectSignaturesByteAnalysis.
    destruct (ReadFile w filePath) as [data|e]; [|split; reflexivity].
    pose proof (scanSignatureBytes_flag data) as Hf.
    destruct (scanSignatureBytes data) as [b n]. cbn [fst snd] in *. subst b.
    destruct (0 <? n) eqn:E; cbn [fst snd coarseVerdict].
    + apply Z.ltb_lt in E. repeat split. cbn [SignatureCount setHasDigitalSignatures]. lia.
    + split; reflexivity.
  - rewrite byteScanStage_found. cbn [fst snd coarseVerdict].
    cbn [setHasDigitalSignatures HasDigitalSignatures SignatureCount Signatures newPDFInfo].
    repeat split. lia.
Qed.

Lemma C3_blocked_validation_keeps_coarse_verdict_witness :
  let final :=
    analyzeDigitalSignatures (Samples.world (Ok Samples.plain) Samples.blocked)
      "encrypted.pdf" (Some Samples.signedDocument) newPDFInfo in
  HasDigitalSignatures final = true
  /\ 1 <= SignatureCount final
  /\ SignatureCount final = 3
  /\ Signatures final = [].
Proof.
  apply (C3_blocked_validation_keeps_coarse_verdict
           (Samples.world (Ok Samples.plain) Samples.blocked)
           "encrypted.pdf" (Some Samples.signedDocument)).
  intros results H. discriminate H.
Defined.

(** ** Claims about the byte-pattern signature scan *)

Section byte_scan_facts.
Import strings.

Lemma Count_nonneg s p : 0 <= Count s p.
Proof.
  destruct p as [|a p]; unfold Count.
  - unfold len. lia.
  - apply countFrom_nonneg.
Qed.

(** An authoritative pattern adds its number of occurrences. *)
Lemma countPattern_authoritative content c pattern :
  String.eqb pattern "/Type/Sig" || String.eqb pattern "/FT/Sig" = true ->
  countPattern content c pattern = c + Count content pattern.
Proof.
  intros H. unfold countPattern. rewrite H.
  pose proof (Count_nonneg content pattern) as Hc.
  destruct (0 <? Count content pattern) eqn:E; [reflexivity|].
  apply Z.ltb_ge in E. lia.
Qed.

(** A corroborating pattern lifts a zero count to 1 when it occurs and
    changes nothing otherwise. *)
Lemma countPattern_corroborating content c pattern :
  corroborates pattern = true ->
  countPattern content c pattern =
  if (c =? 0) && Contains content pattern then 1 else c.
Proof.
  intros H. unfold corroborates in H.
  apply andb_true_iff in H as [Ha He].
  apply negb_true_iff in Ha. apply negb_true_iff in He.
  unfold countPattern. rewrite Ha.
  destruct pattern as [|a pattern]; [discriminate He|].
  rewrite Count_pos_Contains.
  destruct (Contains content (String a pattern)), (c =? 0); reflexivity.
Qed.

(** However many corroborating patterns occur, a zero count becomes
    exactly 1 and a non-zero count is kept. *)
Lemma corroborating_loop content patterns c :
  forallb corroborates patterns = true ->
  fold_left (countPattern content) patterns c =
  if c =? 0 then (if existsb (Contains content) patterns then 1 else 0) else c.
Proof.
  revert c. induction patterns as [|p patterns IH]; intros c Hall.
  - cbn [fold_left existsb]. destruct (c =? 0) eqn:E; [|reflexivity].
    apply Z.eqb_eq in E. exact E.
  - cbn [forallb] in Hall. apply andb_true_iff in Hall as [Hp Hall].
    cbn [fold_left existsb]. rewrite IH by exact Hall.
    rewrite countPattern_corroborating by exact Hp.
    destruct (c =? 0) eqn:E; cbn [andb].
    + destruct (Contains content p); cbn [orb]; [|rewrite E]; reflexivity.
    + rewrite E. reflexivity.
Qed.

Lemma sigDictFallback_existsb content patterns :
  sigDictFallback content patterns 0 =
  if existsb (Contains content) patterns then 1 else 0.
Proof.
  induction patterns as [|p patterns IH]; [reflexivity|].
  cbn [sigDictFallback existsb].
  destruct (Contains content p); [reflexivity | exact IH].
Qed.

Lemma signaturePatterns_split :
  signaturePatterns = "/Type/Sig" :: "/FT/Sig" :: corroboratingPatterns.
Proof. reflexivity. Qed.

Lemma fold_left_step {A B} (f : A -> B -> A) x l a :
  fold_left f (x :: l) a = fold_left f l (f a x).
Proof. reflexivity. Qed.

(** The first loop leaves the sum of the authoritative occurrences, or 1
    when that sum is 0 and a corroborating pattern occurs. *)
Lemma first_loop content :
  fold_left (countPattern content) signaturePatterns 0 =
  let authoritative := Count content "/Type/Sig" + Count content "/FT/Sig" in
  if authoritative =? 0
  then (if existsb (Contains content) corroboratingPatterns then 1 else 0)
  else authoritative.
Proof.
  rewrite signaturePatterns_split, !fold_left_step.
  rewrite (countPattern_authoritative content 0 "/Type/Sig") by reflexivity.
  rewrite (countPattern_authoritative content _ "/FT/Sig") by reflexivity.
  rewrite corroborating_loop by reflexivity.
  rewrite Z.add_0_l. reflexivity.
Qed.

(** The scan computes the specified count, and its boolean says whether
    the count is positive. *)
Lemma scanSignatureBytes_specified content :
  scanSignatureBytes content = (0 <? specifiedCount content, specifiedCount content).
Proof.
  assert (Hcount :
    (if fold_left (countPattern content) signaturePatterns 0 =? 0
     then sigDictFallback content sigDictPatterns
            (fold_left (countPattern content) signaturePatterns 0)
     else fold_left (countPattern content) signaturePatterns 0)
    = specifiedCount content).
  { rewrite first_loop. unfold specifiedCount. cbv zeta.
    generalize (Count content "/Type/Sig" + Count content "/FT/Sig"). intros a.
    destruct (a =? 0) eqn:Ea; [|rewrite Ea; reflexivity].
    destruct (existsb (Contains content) corroboratingPatterns); [reflexivity|].
    rewrite Z.eqb_refl. apply sigDictFallback_existsb. }
  rewrite <- Hcount. cbv beta zeta delta [scanSignatureBytes]. reflexivity.
Qed.

End byte_scan_facts.

(** C4.  For every byte content the scan's count is the number of
    occurrences of [/Type/Sig] plus that of [/FT/Sig]; when that sum is 0
    it is exactly 1 if some corroborating pattern occurs, however many do,
    else 1 if one of [/Sig], [<</Type/Sig], [<</FT/Sig] occurs, else 0; the
    boolean is [count > 0].  So a file with [/Type/Sig] twice and
    [/FT/Sig] once, on which only the byte scan succeeds, is reported with
    count 3. *)
Theorem C4_byte_scan_aggregation :
  (forall content,
     scanSignatureBytes content = (0 <? specifiedCount content, specifiedCount content))
  /\ (forall w filePath ctx content,
        ReadFile w filePath = Ok content ->
        strings.Count content "/Type/Sig" = 2 ->
        strings.Count content "/FT/Sig" = 1 ->
        fst (detectSignatureFields ctx newPDFInfo) = false ->
        (forall results, ValidateSignatures w filePath = Ok results -> results = []) ->
        SignatureCount (analyzeDigitalSignatures w filePath ctx newPDFInfo) = 3).
Proof.
  split; [exact scanSignatureBytes_specified|].
  intros w filePath ctx content Hread H2 H1 Hloc Hv.
  unfold analyzeDigitalSignatures.
  rewrite validationStage_blocked by exact Hv.
  destruct (detectSignatureFields_cases ctx newPDFInfo) as [H|[estimate [_ H]]];
    rewrite H in *; [|discriminate Hloc].
  rewrite byteScanStage_unfound, Hread, scanSignatureBytes_specified.
  cbn [snd]. unfold specifiedCount. rewrite H2, H1. reflexivity.
Qed.

Lemma C4_byte_scan_aggregation_witness :
  SignatureCount
    (analyzeDigitalSignatures (Samples.world (Ok Samples.threeMarkers) Samples.blocked)
       "encrypted.pdf" None newPDFInfo) = 3.
Proof.
  apply (proj2 C4_byte_scan_aggregation
           (Samples.world (Ok Samples.threeMarkers) Samples.blocked)
           "encrypted.pdf" None Samples.threeMarkers).
  - reflexivity.
  - vm_compute. reflexivity.
  - vm_compute. reflexivity.
  - reflexivity.
  - intros results H. discriminate H.
Defined.

(** ** Claims about the structural locator *)

(** C5.  The first strategy of the locator does not walk the AcroForm:
    [processAcroForm] answers 0 for every document, also for the document
    whose AcroForm lists one field with [FT = Sig].  There the specified
    walk counts one signature field, the helper [isSignatureField] of the
    same file accepts the field, and the [processAcroForm] of
    [pdf-info.go] answers 1; yet the locator finds nothing. *)
Theorem C5_acroform_walk_not_performed :
  (forall ctx acroFormObj info, processAcroForm ctx acroFormObj info = 0)
  /\ specifiedFieldCount Samples.formDocument Samples.acroForm = 1
  /\ isSignatureField
       (resolveFieldDict Samples.formDocument (Some (types.DictObj Samples.sigField)))
     = true
  /\ fst (Monolith.processAcroForm Samples.formDocument Samples.acroForm newPDFInfo) = 1
  /\ processAcroForm Samples.formDocument Samples.acroForm newPDFInfo = 0
  /\ detectSignatureFields (Some Samples.formDocument) newPDFInfo = (false, newPDFInfo).
Proof. repeat split. Qed.

(** C8, as stated, fails: on a document whose cross-reference scan
    estimates 3 while validation returns one result, the recorded count
    goes from 3 down to 1 within the pass. *)
Lemma C8_count_decreases_within_pass :
  countHistory (Samples.world (Ok Samples.plain) (Ok [Samples.certifying]))
    "signed.pdf" (Some Samples.signedDocument) newPDFInfo = [0; 3; 3; 1]
  /\ neverDecreases
       (countHistory (Samples.world (Ok Samples.plain) (Ok [Samples.certifying]))
          "signed.pdf" (Some Samples.signedDocument) newPDFInfo) = false.
Proof. split; vm_compute; reflexivity. Qed.

(** C8, amended.  The structural locator changes the recorded count only
    to an estimate that strictly exceeds it, so the count never decreases
    across the locator's run. *)
Theorem C8_locator_only_raises_count ctx info :
  let info' := snd (detectSignatureFields ctx info) in
  SignatureCount info <= SignatureCount info'
  /\ (SignatureCount info' = SignatureCount info
      \/ exists c root,
           ctx = Some c /\ model.RootDict c = Some root
           /\ SignatureCount info < snd (locatorEstimate c root info)
           /\ SignatureCount info' = snd (locatorEstimate c root info)).
Proof.
  unfold detectSignatureFields.
  destruct ctx as [c|]; [|cbn [snd]; split; [lia | left; reflexivity]].
  destruct (model.RootDict c) as [root|] eqn:Hroot;
    [|cbn [snd]; split; [lia | left; reflexivity]].
  destruct (locatorEstimate c root info) as [found estimate] eqn:Hest.
  destruct ((0 <? estimate) || found); [|cbn [snd]; split; [lia | left; reflexivity]].
  cbn [snd setHasDigitalSignatures SignatureCount].
  destruct (SignatureCount info <? estimate) eqn:E;
    unfold setSignatureCount, setHasDigitalSignatures; cbn [snd SignatureCount].
  - apply Z.ltb_lt in E. split; [lia|].
    right. exists c, root. rewrite Hest. cbn [snd]. repeat split; assumption.
  - split; [lia | left; reflexivity].
Qed.

(** ** Claims about timestamps *)

Section timestamp_facts.
Import strings.

Lemma get_insert_eq (m : gmap string string) key v : get (<[key := v]> m) key = v.
Proof. unfold get. rewrite lookup_insert_eq. reflexivity. Qed.

Lemma get_insert_ne (m : gmap string string) key key' v :
  key <> key' -> get (<[key := v]> m) key' = get m key'.
Proof. intros H. unfold get. rewrite lookup_insert_ne by exact H. reflexivity. Qed.

Lemma get_empty key : get ∅ key = "".
Proof. unfold get. rewrite lookup_empty. reflexivity. Qed.

(** The code's label is the specified one: a pattern that contains
    [Assinador Serpro] contains [Serpro]. *)
Lemma timestampTypeOf_specified pattern :
  timestampTypeOf pattern = specifiedTypeLabel pattern.
Proof.
  unfold timestampTypeOf, specifiedTypeLabel.
  destruct (Contains pattern "Serpro") eqn:E; [reflexivity|].
  destruct (Contains pattern "Assinador Serpro") eqn:E'; [|reflexivity].
  rewrite (Contains_trans pattern "Assinador Serpro" "Serpro") in E
    by (exact E' || reflexivity).
  discriminate E.
Qed.

Lemma timestampTypeOf_nonempty pattern : timestampTypeOf pattern <> "".
Proof.
  unfold timestampTypeOf.
  repeat match goal with |- context [if ?b then _ else _] => destruct b end;
    discriminate.
Qed.

(** The first loop stops at the first pattern that occurs. *)
Lemma scanTimestampPatterns_find content patterns m :
  scanTimestampPatterns content patterns m =
  match List.find (Contains content) patterns with
  | Some pattern => (true, <["type" := timestampTypeOf pattern]> m)
  | None => (false, m)
  end.
Proof.
  induction patterns as [|p patterns IH]; [reflexivity|].
  cbn [scanTimestampPatterns List.find].
  destruct (Contains content p); [reflexivity | exact IH].
Qed.

Lemma extractTime_type content patterns m :
  get (extractTime content patterns m) "type" = get m "type".
Proof.
  induction patterns as [|p patterns IH]; [reflexivity|].
  cbn [extractTime]. cbv zeta.
  destruct (negb (Index content p =? -1)); [|exact IH].
  apply get_insert_ne. discriminate.
Qed.

Lemma extractAuthority_other content patterns m key :
  key <> "authority" ->
  get (extractAuthority content patterns m) key = get m key.
Proof.
  intros Hk. induction patterns as [|p patterns IH]; [reflexivity|].
  cbn [extractAuthority]. cbv zeta.
  destruct (negb (Index content p =? -1)); [|exact IH].
  apply get_insert_ne. congruence.
Qed.

Lemma extractTime_absent content patterns m :
  (forall p, In p patterns -> Contains content p = false) ->
  extractTime content patterns m = m.
Proof.
  induction patterns as [|p patterns IH]; intros H; [reflexivity|].
  cbn [extractTime]. cbv zeta.
  rewrite (Index_absent content p) by (apply H; left; reflexivity).
  cbn [Z.eqb negb]. apply IH. intros q Hq. apply H. right. exact Hq.
Qed.

Lemma extractAuthority_absent content patterns m :
  (forall p, In p patterns -> Contains content p = false) ->
  extractAuthority content patterns m = m.
Proof.
  induction patterns as [|p patterns IH]; intros H; [reflexivity|].
  cbn [extractAuthority]. cbv zeta.
  rewrite (Index_absent content p) by (apply H; left; reflexivity).
  cbn [Z.eqb negb]. apply IH. intros q Hq. apply H. right. exact Hq.
Qed.

Lemma withDefaults_type m : get (withDefaults m) "type" = get m "type".
Proof.
  unfold withDefaults. cbv zeta.
  destruct (String.eqb (get m "time") "").
  - destruct (String.eqb (get (<["time" := "Unknown"]> m) "authority") "").
    + rewrite !get_insert_ne by discriminate. reflexivity.
    + rewrite get_insert_ne by discriminate. reflexivity.
  - destruct (String.eqb (get m "authority") "").
    + rewrite get_insert_ne by discriminate. reflexivity.
    + reflexivity.
Qed.

(** The scan as a function of the first pattern that occurs. *)
Lemma scanTimestampBytes_find content :
  scanTimestampBytes content =
  match List.find (Contains content) timestampPatterns with
  | Some pattern =>
      (true,
       withDefaults
         (extractAuthority content authorityPatterns
            (extractTime content timePatterns
               (<["type" := timestampTypeOf pattern]> ∅))))
  | None => (false, ∅)
  end.
Proof.
  unfold scanTimestampBytes. rewrite scanTimestampPatterns_find.
  destruct (List.find (Contains content) timestampPatterns); reflexivity.
Qed.

Lemma scanTimestampBytes_type content pattern :
  List.find (Contains content) timestampPatterns = Some pattern ->
  fst (scanTimestampBytes content) = true
  /\ get (snd (scanTimestampBytes content)) "type" = timestampTypeOf pattern.
Proof.
  intros H. rewrite scanTimestampBytes_find, H. cbn [fst snd].
  split; [reflexivity|].
  rewrite withDefaults_type, extractAuthority_other by discriminate.
  rewrite extractTime_type. apply get_insert_eq.
Qed.

End timestamp_facts.

Section timestamp_claims.
Import strings.

Lemma withDefaults_keeps m key :
  get m key <> "" -> get (withDefaults m) key = get m key.
Proof.
  intros H. unfold withDefaults. cbv zeta.
  destruct (String.eqb_spec (get m "time") "") as [Et|Et].
  - assert (key <> "time") as Hk by (intros ->; contradiction).
    destruct (String.eqb_spec (get (<["time" := "Unknown"]> m) "authority") "") as [Ea|Ea].
    + rewrite get_insert_ne in Ea by discriminate.
      assert (key <> "authority") as Hk' by (intros ->; contradiction).
      rewrite !get_insert_ne by congruence. reflexivity.
    + rewrite get_insert_ne by congruence. reflexivity.
  - destruct (String.eqb_spec (get m "authority") "") as [Ea|Ea]; [|reflexivity].
    assert (key <> "authority") as Hk' by (intros ->; contradiction).
    rewrite get_insert_ne by congruence. reflexivity.
Qed.

Lemma withDefaults_only_type v :
  withDefaults (<["type" := v]> ∅) =
  <["authority" := "Unknown"]> (<["time" := "Unknown"]> (<["type" := v]> ∅)).
Proof.
  unfold withDefaults. cbv zeta.
  rewrite get_insert_ne, get_empty by discriminate. cbn [String.eqb].
  rewrite !get_insert_ne, get_empty by discriminate. reflexivity.
Qed.

(** [analyzeTimestamp] writes the timestamp fields only, and what it
    writes does not depend on the record it is given. *)
Lemma analyzeTimestamp_result w filePath sigInfo :
  analyzeTimestamp w filePath sigInfo =
  let '(hasTimestamp, timestampInfo) := detectTimestampByteAnalysis w filePath in
  if hasTimestamp
  then setTimestamp true (get timestampInfo "type") (get timestampInfo "time")
         (get timestampInfo "authority") "Present" sigInfo
  else setTimestamp false "" "" "" "None" sigInfo.
Proof.
  unfold analyzeTimestamp.
  destruct (detectTimestampByteAnalysis w filePath) as [[|] m]; reflexivity.
Qed.

Lemma analyzeTimestamp_independent w filePath sigInfo sigInfo' :
  timestampOf (analyzeTimestamp w filePath sigInfo)
  = timestampOf (analyzeTimestamp w filePath sigInfo').
Proof.
  rewrite !analyzeTimestamp_result.
  destruct (detectTimestampByteAnalysis w filePath) as [[|] m]; reflexivity.
Qed.

End timestamp_claims.

(** C9.  After [analyzeTimestamp], whatever record it was given: when
    [HasTimestamp] is false the type, time and authority are empty and the
    status is [None]; when it is true the type is non-empty and the status
    is [Present]; and a failed read of the file leaves the record in the
    absent state. *)
Theorem C9_timestamp_record_invariant w filePath sigInfo :
  let s := analyzeTimestamp w filePath sigInfo in
  (if HasTimestamp s
   then TimestampType s <> "" /\ TimestampStatus s = "Present"
   else TimestampType s = "" /\ TimestampTime s = ""
        /\ TimestampAuthority s = "" /\ TimestampStatus s = "None")
  /\ match ReadFile w filePath with
     | Err _ => timestampOf s = (false, "", "", "", "None")
     | Ok _ => True
     end.
Proof.
  cbv zeta. rewrite analyzeTimestamp_result. unfold detectTimestampByteAnalysis.
  destruct (ReadFile w filePath) as [data|e].
  - split; [|exact I].
    rewrite scanTimestampBytes_find.
    destruct (List.find (strings.Contains data) timestampPatterns) as [pattern|] eqn:Hf.
    + cbn [setTimestamp HasTimestamp TimestampType TimestampStatus].
      split; [|reflexivity].
      pose proof (scanTimestampBytes_type data pattern Hf) as [_ Ht].
      rewrite scanTimestampBytes_find, Hf in Ht. cbn [snd] in Ht. rewrite Ht.
      apply timestampTypeOf_nonempty.
    + cbn. repeat split.
  - cbn. repeat split.
Qed.

(** C10.  Within one analysis that starts with an empty detail list, all
    records of the resulting list carry the same timestamp fields: each is
    computed from the bytes of the file alone. *)
Theorem C10_records_share_timestamp w filePath ctx info s1 s2 :
  Signatures info = [] ->
  In s1 (Signatures (analyzeDigitalSignatures w filePath ctx info)) ->
  In s2 (Signatures (analyzeDigitalSignatures w filePath ctx info)) ->
  timestampOf s1 = timestampOf s2.
Proof.
  intros Hnil. unfold analyzeDigitalSignatures.
  destruct (ValidateSignatures w filePath) as [[|r results]|e] eqn:Hv.
  3: {
    rewrite validationStage_blocked by (intros rs H; rewrite Hv in H; discriminate H).
    destruct (detection_cases w filePath ctx info) as [H|[info' [H [_ [_ Hs]]]]];
      rewrite H; cbn [fst snd]; unfold coarseVerdict;
      cbn [Signatures setHasDigitalSignatures setSignatureCount];
      rewrite ?Hs, Hnil; intros []. }
  - rewrite validationStage_blocked
      by (intros rs H; rewrite Hv in H; injection H as <-; reflexivity).
    destruct (detection_cases w filePath ctx info) as [H|[info' [H [_ [_ Hs]]]]];
      rewrite H; cbn [fst snd]; unfold coarseVerdict;
      cbn [Signatures setHasDigitalSignatures setSignatureCount];
      rewrite ?Hs, Hnil; intros [].
  - rewrite (validationStage_results w filePath (r :: results)) by (exact Hv || discriminate).
    cbn [Signatures]. intros H1 H2.
    apply in_map_iff in H1 as [r1 [<- _]].
    apply in_map_iff in H2 as [r2 [<- _]].
    unfold signatureRecord. apply analyzeTimestamp_independent.
Qed.

Lemma C10_records_share_timestamp_witness :
  timestampOf
    (signatureRecord
       (Samples.world (Ok Samples.serproStamped) (Ok [Samples.certifying; Samples.approval]))
       "signed.pdf" Samples.certifying)
  = timestampOf
      (signatureRecord
         (Samples.world (Ok Samples.serproStamped) (Ok [Samples.certifying; Samples.approval]))
         "signed.pdf" Samples.approval).
Proof.
  apply (C10_records_share_timestamp
           (Samples.world (Ok Samples.serproStamped) (Ok [Samples.certifying; Samples.approval]))
           "signed.pdf" (Some Samples.signedDocument) newPDFInfo).
  - reflexivity.
  - vm_compute. left. reflexivity.
  - vm_compute. right. left. reflexivity.
Defined.

Section scenario_facts.
Import strings.

(** The patterns that precede the first one that occurs do not occur. *)
Ltac earlier_absent H :=
  unfold timestampPatterns in H; cbn [List.find] in H;
  repeat match type of H with
         | (if ?b then _ else _) = _ => destruct b eqn:?; [discriminate H|]
         end.

Lemma byteRange_first_no_date content :
  List.find (Contains content) timestampPatterns = Some "/ByteRange" ->
  forall p, In p timePatterns -> Contains content p = false.
Proof.
  intros H. earlier_absent H.
  assert (Hd : Contains content "D:20" = false) by assumption.
  intros p [<-|[<-|[]]].
  - destruct (Contains content "D:202") eqn:E; [|reflexivity].
    rewrite (Contains_trans content "D:202" "D:20") in Hd by (exact E || reflexivity).
    discriminate Hd.
  - destruct (Contains content "D:201") eqn:E; [|reflexivity].
    rewrite (Contains_trans content "D:201" "D:20") in Hd by (exact E || reflexivity).
    discriminate Hd.
Qed.

(** The 20-byte candidate extends the 16 bytes at the same index. *)
Lemma candidate_extends content idx date :
  0 <= idx ->
  slice content idx (idx + 16) = date ->
  String.length date = 16%nat ->
  exists rest,
    slice content idx
      (if len content <? idx + 20 then len content else idx + 20)
    = date +:+ rest.
Proof.
  intros Hidx Hdate Hlen. unfold slice in *.
  replace (Z.to_nat (idx + 16 - idx)) with 16%nat in Hdate by lia.
  destruct (substring_length_le (Z.to_nat idx) 16 content) as [Hle|He];
    [|rewrite He in Hdate; rewrite <- Hdate in Hlen; discriminate Hlen].
  rewrite Hdate, Hlen in Hle.
  set (endIdx := if len content <? idx + 20 then len content else idx + 20).
  assert (Hend : idx + 16 <= endIdx).
  { unfold endIdx, len. destruct (Z.of_nat (String.length content) <? idx + 20); lia. }
  replace (Z.to_nat (endIdx - idx)) with (16 + Z.to_nat (endIdx - idx - 16))%nat by lia.
  rewrite substring_split, Hdate. eexists. reflexivity.
Qed.

(** A candidate that starts with the date [D:20250606155827] is
    formatted as [2025-06-06 15:58:27]. *)
Lemma formatTimestamp_date rest :
  formatTimestamp ("D:20250606155827" +:+ rest) = "2025-06-06 15:58:27".
Proof.
  repeat rewrite append_cons. change ("" +:+ rest) with rest.
  unfold formatTimestamp.
  match goal with
  | |- context [len ?s] =>
      assert (H16 : 16 <= len s) by (unfold len; cbn [String.length]; lia)
  end.
  rewrite (proj2 (Z.leb_le 15 _)) by lia.
  rewrite (proj2 (Z.leb_le 16 _)) by lia.
  clear H16. destruct rest; vm_compute; reflexivity.
Qed.

Lemma extractTime_date content m :
  0 <= Index content "D:202" ->
  slice content (Index content "D:202") (Index content "D:202" + 16)
  = "D:20250606155827" ->
  get (extractTime content timePatterns m) "time" = "2025-06-06 15:58:27".
Proof.
  intros Hidx Hdate. unfold timePatterns. cbn [extractTime]. cbv zeta.
  destruct (Index content "D:202" =? -1) eqn:E; [apply Z.eqb_eq in E; lia|].
  cbn [negb]. rewrite get_insert_eq.
  destruct (candidate_extends content _ _ Hidx Hdate eq_refl) as [rest Hc].
  rewrite Hc. apply formatTimestamp_date.
Qed.

End scenario_facts.

(** C6, amended.  The first pattern of the list that occurs in the bytes
    decides the verdict and the type label, by the specified substring
    tests on that pattern; when none occurs there is no timestamp.  So a
    file in which [/ByteRange] is the first (hence the only) pattern of
    the list that occurs, and in which no authority pattern occurs, gets
    present = true, type [Embedded], time [Unknown], authority [Unknown]. *)
Theorem C6_first_pattern_decides :
  (forall content,
     match List.find (strings.Contains content) timestampPatterns with
     | Some pattern =>
         fst (scanTimestampBytes content) = true
         /\ get (snd (scanTimestampBytes content)) "type" = specifiedTypeLabel pattern
     | None => scanTimestampBytes content = (false, ∅)
     end)
  /\ (forall w filePath content sigInfo,
        ReadFile w filePath = Ok content ->
        List.find (strings.Contains content) timestampPatterns = Some "/ByteRange" ->
        (forall p, In p authorityPatterns -> strings.Contains content p = false) ->
        timestampOf (analyzeTimestamp w filePath sigInfo)
        = (true, "Embedded", "Unknown", "Unknown", "Present")).
Proof.
  split.
  - intros content.
    destruct (List.find (strings.Contains content) timestampPatterns) as [pattern|] eqn:Hf.
    + rewrite <- timestampTypeOf_specified. apply scanTimestampBytes_type. exact Hf.
    + rewrite scanTimestampBytes_find, Hf. reflexivity.
  - intros w filePath content sigInfo Hread Hfirst Hauth.
    rewrite analyzeTimestamp_result. unfold detectTimestampByteAnalysis.
    rewrite Hread, scanTimestampBytes_find, Hfirst.
    rewrite extractTime_absent by (apply byteRange_first_no_date; exact Hfirst).
    rewrite extractAuthority_absent by exact Hauth.
    rewrite withDefaults_only_type.
    unfold timestampOf. cbn [setTimestamp HasTimestamp TimestampType TimestampTime
                             TimestampAuthority TimestampStatus].
    rewrite get_insert_eq.
    rewrite (get_insert_ne _ "authority" "time"), get_insert_eq by discriminate.
    rewrite !(get_insert_ne _ _ "type"), get_insert_eq by discriminate.
    reflexivity.
Qed.

Lemma C6_first_pattern_decides_witness :
  timestampOf
    (analyzeTimestamp (Samples.world (Ok Samples.byteRangeOnly) Samples.blocked)
       "signed.pdf" (signatureRecord (Samples.world (Err "unread") Samples.blocked)
                       "signed.pdf" Samples.approval))
  = (true, "Embedded", "Unknown", "Unknown", "Present").
Proof.
  apply (proj2 C6_first_pattern_decides
           (Samples.world (Ok Samples.byteRangeOnly) Samples.blocked)
           "signed.pdf" Samples.byteRangeOnly).
  - reflexivity.
  - vm_compute. reflexivity.
  - intros p Hp. vm_compute in Hp.
    repeat (destruct Hp as [<-|Hp]; [vm_compute; reflexivity|]).
    destruct Hp.
Defined.

(** C7, amended.  In a file whose validation yields a certifying
    signature, whose first occurring timestamp pattern is [Serpro], and
    whose first [D:202] date is [D:20250606155827], the record of that
    signature has type [Certified], timestamp type [Serpro TSA] and
    timestamp time [2025-06-06 15:58:27]. *)
Theorem C7_serpro_scenario w filePath ctx info content results i result :
  ReadFile w filePath = Ok content ->
  ValidateSignatures w filePath = Ok results ->
  nth_error results i = Some result ->
  Certified result = true ->
  List.find (strings.Contains content) timestampPatterns = Some "Serpro" ->
  0 <= strings.Index content "D:202" ->
  strings.slice content (strings.Index content "D:202")
    (strings.Index content "D:202" + 16) = "D:20250606155827" ->
  exists sigInfo,
    nth_error (Signatures (analyzeDigitalSignatures w filePath ctx info)) i = Some sigInfo
    /\ Type_ sigInfo = "Certified"
    /\ HasTimestamp sigInfo = true
    /\ TimestampType sigInfo = "Serpro TSA"
    /\ TimestampTime sigInfo = "2025-06-06 15:58:27".
Proof.
  intros Hread Hv Hi Hcert Hfirst Hidx Hdate.
  exists (signatureRecord w filePath result).
  unfold analyzeDigitalSignatures.
  rewrite (validationStage_results w filePath results)
    by (exact Hv || (intros ->; destruct i; discriminate Hi)).
  cbn [Signatures]. rewrite nth_error_map, Hi. split; [reflexivity|].
  unfold signatureRecord. rewrite analyzeTimestamp_result.
  unfold detectTimestampByteAnalysis.
  rewrite Hread, scanTimestampBytes_find, Hfirst, Hcert.
  cbn [setTimestamp Type_ HasTimestamp TimestampType TimestampTime].
  repeat split.
  - rewrite withDefaults_type, extractAuthority_other by discriminate.
    rewrite extractTime_type. apply get_insert_eq.
  - assert (Ht : get (extractAuthority content authorityPatterns
                        (extractTime content timePatterns
                           (<["type" := timestampTypeOf "Serpro"]> ∅))) "time"
                 = "2025-06-06 15:58:27").
    { rewrite extractAuthority_other by discriminate.
      apply extractTime_date; assumption. }
    rewrite withDefaults_keeps; rewrite Ht; [reflexivity | discriminate].
Qed.

Lemma C7_serpro_scenario_witness :
  exists sigInfo,
    nth_error
      (Signatures
         (analyzeDigitalSignatures
            (Samples.world (Ok Samples.serproStamped) (Ok [Samples.certifying]))
            "signed.pdf" (Some Samples.signedDocument) newPDFInfo)) 0
    = Some sigInfo
    /\ Type_ sigInfo = "Certified"
    /\ HasTimestamp sigInfo = true
    /\ TimestampType sigInfo = "Serpro TSA"
    /\ TimestampTime sigInfo = "2025-06-06 15:58:27".
Proof.
  apply (C7_serpro_scenario
           (Samples.world (Ok Samples.serproStamped) (Ok [Samples.certifying]))
           "signed.pdf" (Some Samples.signedDocument) newPDFInfo
           Samples.serproStamped [Samples.certifying] 0%nat Samples.certifying).
  - reflexivity.
  - reflexivity.
  - reflexivity.
  - reflexivity.
  - vm_compute. reflexivity.
  - vm_compute. discriminate.
  - vm_compute. reflexivity.
Defined.

(** C6, as stated, fails: a signature dictionary with a PKCS#7 subfilter
    before its [/ByteRange], and with no authority and no date marker, is
    labelled [PKCS#7], not [Embedded]. *)
Lemma C6_byteRange_with_earlier_pattern :
  strings.Contains Samples.subFilterThenByteRange "/ByteRange" = true
  /\ occursNone Samples.subFilterThenByteRange authorityPatterns = true
  /\ occursNone Samples.subFilterThenByteRange dateMarkers = true
  /\ timestampOf
       (analyzeTimestamp
          (Samples.world (Ok Samples.subFilterThenByteRange) Samples.blocked)
          "signed.pdf"
          (signatureRecord (Samples.world (Err "unread") Samples.blocked)
             "signed.pdf" Samples.approval))
     = (true, "PKCS#7", "Unknown", "Unknown", "Present")
  /\ "PKCS#7" <> "Embedded".
Proof. repeat split; try (vm_compute; reflexivity). discriminate. Qed.

(** C7, as stated, fails: with a certifying signature, a Serpro marker
    and the date [D:20250606155827], but a PKCS#7 subfilter earlier in the
    pattern list, the timestamp type is [PKCS#7], not [Serpro TSA]. *)
Lemma C7_serpro_with_earlier_pattern :
  let w := Samples.world (Ok Samples.serproWithSubFilter) (Ok [Samples.certifying]) in
  Certified Samples.certifying = true
  /\ strings.Contains Samples.serproWithSubFilter "Serpro" = true
  /\ strings.Contains Samples.serproWithSubFilter "D:20250606155827" = true
  /\ List.map (fun s => (Type_ s, TimestampType s, TimestampTime s))
       (Signatures
          (analyzeDigitalSignatures w "signed.pdf" (Some Samples.signedDocument) newPDFInfo))
     = [("Certified", "PKCS#7", "2025-06-06 15:58:27")]
  /\ "PKCS#7" <> "Serpro TSA".
Proof. repeat split; try (vm_compute; reflexivity). discriminate. Qed.

(** * Further properties of the code *)

(** ** The cross-reference scan and the locator's verdict *)

Section locator_properties.
Import types model.

(** One table entry adds between 0 and 3 to the running count. *)
Lemma scanTableEntry_step ctx xRefTable c i :
  c <= scanTableEntry ctx xRefTable c i <= c + 3.
Proof.
  unfold scanTableEntry.
  destruct (FindTableEntry xRefTable i 0) as [entry|]; [|lia].
  destruct (Object entry) as [[n|r|dict|a|z|b|s]|]; try lia.
  destruct (Entry dict "Type") as [typeObj [|]];
    destruct (Entry dict "FT") as [ftObj [|]];
    repeat match goal with
           | |- context [if ?b then _ else _] => destruct b
           end; lia.
Qed.

Lemma scan_fold_bounds ctx xRefTable (l : list Z) c :
  c <= fold_left (scanTableEntry ctx xRefTable) l c <= c + 3 * Z.of_nat (length l).
Proof.
  revert c. induction l as [|i l IH]; intros c; cbn [fold_left length]; [lia|].
  pose proof (scanTableEntry_step ctx xRefTable c i).
  specialize (IH (scanTableEntry ctx xRefTable c i)). lia.
Qed.

Lemma scanXRefTable_bounds ctx :
  0 <= scanXRefTable ctx
  /\ scanXRefTable ctx
     <= 3 * match XRefTable_ ctx with
            | Some xRefTable => Z.max 0 (Size xRefTable)
            | None => 0
            end.
Proof.
  unfold scanXRefTable. destruct (XRefTable_ ctx) as [xRefTable|]; [|lia].
  pose proof (scan_fold_bounds ctx xRefTable (seqZ 1 (Size xRefTable)) 0) as H.
  rewrite length_seqZ in H. lia.
Qed.

(** X1.  The cross-reference scan counts every object at most three
    times: its result lies between 0 and three times the table size, and
    it is 0 without a table or with a size that is not positive. *)
Theorem X1_xref_scan_bounds ctx :
  0 <= scanXRefTable ctx
  /\ scanXRefTable ctx
     <= 3 * match XRefTable_ ctx with
            | Some xRefTable => Z.max 0 (Size xRefTable)
            | None => 0
            end.
Proof. exact (scanXRefTable_bounds ctx). Qed.

(** The locals of the locator do not depend on the record passed in. *)
Lemma locatorEstimate_info ctx root info info' :
  locatorEstimate ctx root info = locatorEstimate ctx root info'.
Proof. reflexivity. Qed.

Lemma locatorEstimate_value ctx root info :
  locatorEstimate ctx root info =
  (false,
   if scanXRefTable ctx =? 0
   then (if hasSignatureIndicators ctx then 1 else 0)
   else scanXRefTable ctx).
Proof.
  unfold locatorEstimate, processAcroForm. cbv zeta.
  replace (match Entry root "AcroForm" with
           | (Some _, true) => if 0 <? 0 then true else false
           | _ => false
           end) with false
    by (destruct (Entry root "AcroForm") as [[o|] [|]]; reflexivity).
  cbn [negb andb].
  destruct (scanXRefTable ctx =? 0) eqn:E; [|reflexivity].
  apply Z.eqb_eq in E. rewrite E.
  destruct (hasSignatureIndicators ctx); reflexivity.
Qed.

(** X2.  The locator answers true exactly when the document has a
    catalog and either the cross-reference scan counts at least one
    object or the AcroForm carries [SigFlags]; the fields of the AcroForm
    play no part, and without a context or a catalog the answer is false
    and the record is untouched. *)
Theorem X2_locator_verdict ctx info :
  fst (detectSignatureFields ctx info) =
  match ctx with
  | Some c =>
      match RootDict c with
      | Some _ => (0 <? scanXRefTable c) || hasSignatureIndicators c
      | None => false
      end
  | None => false
  end
  /\ (fst (detectSignatureFields ctx info) = false ->
      snd (detectSignatureFields ctx info) = info).
Proof.
  unfold detectSignatureFields.
  destruct ctx as [c|]; [|split; reflexivity].
  destruct (RootDict c) as [root|]; [|split; reflexivity].
  rewrite locatorEstimate_value.
  pose proof (scanXRefTable_bounds c) as [Hlo _].
  destruct (scanXRefTable c =? 0) eqn:E.
  - apply Z.eqb_eq in E. rewrite E.
    destruct (hasSignatureIndicators c); cbn; split; try reflexivity; discriminate.
  - apply Z.eqb_neq in E.
    assert (Hp : (0 <? scanXRefTable c) = true) by (apply Z.ltb_lt; lia).
    rewrite Hp. cbn. split; [reflexivity | discriminate].
Qed.

(** The locator's outcome, with a verdict that is the same for every
    record passed in. *)
Lemma detectSignatureFields_run ctx :
  exists verdict : option Z,
    (forall e, verdict = Some e -> 0 < e)
    /\ forall info,
         detectSignatureFields ctx info =
         match verdict with
         | Some e =>
             (true, {| HasDigitalSignatures := true;
                       SignatureCount := Z.max (SignatureCount info) e;
                       Signatures := Signatures info |})
         | None => (false, info)
         end.
Proof.
  destruct ctx as [c|]; [|exists None; split; [discriminate | reflexivity]].
  destruct (RootDict c) as [root|] eqn:Hroot.
  2: { exists None. split; [discriminate|]. intros info.
       unfold detectSignatureFields. rewrite Hroot. reflexivity. }
  set (e := if scanXRefTable c =? 0
            then (if hasSignatureIndicators c then 1 else 0)
            else scanXRefTable c).
  destruct (0 <? e) eqn:E.
  - exists (Some e). apply Z.ltb_lt in E.
    split; [intros e' H; injection H as <-; exact E|].
    intros info. unfold detectSignatureFields.
    rewrite Hroot, locatorEstimate_value. fold e.
    rewrite (proj2 (Z.ltb_lt 0 e) E). cbn [orb].
    f_equal. unfold setHasDigitalSignatures, setSignatureCount.
    cbn [SignatureCount HasDigitalSignatures Signatures].
    destruct (SignatureCount info <? e) eqn:E'.
    + apply Z.ltb_lt in E'. f_equal. lia.
    + apply Z.ltb_ge in E'. f_equal. lia.
  - exists None. split; [discriminate|].
    intros info. unfold detectSignatureFields.
    rewrite Hroot, locatorEstimate_value. fold e. rewrite E. reflexivity.
Qed.

End locator_properties.

(** ** Re-running the analysis, and the shape of its result *)

Section analysis_properties.

(** X3.  Running the analysis again on the record it produced, for the
    same file and document, changes nothing. *)
Theorem X3_analysis_idempotent w filePath ctx info :
  analyzeDigitalSignatures w filePath ctx
    (analyzeDigitalSignatures w filePath ctx info)
  = analyzeDigitalSignatures w filePath ctx info.
Proof.
  unfold analyzeDigitalSignatures.
  destruct (ValidateSignatures w filePath) as [results|e] eqn:Hv.
  - destruct results as [|r results].
    + assert (Hb : forall rs, ValidateSignatures w filePath = Ok rs -> rs = [])
        by (intros rs H; rewrite Hv in H; injection H as <-; reflexivity).
      rewrite !validationStage_blocked by exact Hb.
      destruct (detectSignatureFields_run ctx) as [[e|] [He Hrun]].
      * rewrite !Hrun, !byteScanStage_found. cbn [fst snd coarseVerdict].
        unfold setHasDigitalSignatures. cbn [SignatureCount Signatures].
        f_equal. lia.
      * rewrite !Hrun, !byteScanStage_unfound.
        destruct (ReadFile w filePath) as [data|e']; cbv zeta.
        -- destruct (0 <? snd (scanSignatureBytes data)) eqn:E;
             cbn [fst snd coarseVerdict]; rewrite ?E; reflexivity.
        -- reflexivity.
    + rewrite !(validationStage_results w filePath (r :: results))
        by (exact Hv || discriminate).
      reflexivity.
  - assert (Hb : forall rs, ValidateSignatures w filePath = Ok rs -> rs = [])
      by (intros rs H; rewrite Hv in H; discriminate H).
    rewrite !validationStage_blocked by exact Hb.
    destruct (detectSignatureFields_run ctx) as [[e'|] [He Hrun]].
    + rewrite !Hrun, !byteScanStage_found. cbn [fst snd coarseVerdict].
      unfold setHasDigitalSignatures. cbn [SignatureCount Signatures].
      f_equal. lia.
    + rewrite !Hrun, !byteScanStage_unfound.
      destruct (ReadFile w filePath) as [data|e']; cbv zeta.
      * destruct (0 <? snd (scanSignatureBytes data)) eqn:E;
          cbn [fst snd coarseVerdict]; rewrite ?E; reflexivity.
      * reflexivity.
Qed.

(** X4.  In an analysis that starts with an empty detail list, detailed
    records exist only together with a true flag and a count equal to
    their number. *)
Theorem X4_details_match_count w filePath ctx info :
  Signatures info = [] ->
  Signatures (analyzeDigitalSignatures w filePath ctx info) <> [] ->
  HasDigitalSignatures (analyzeDigitalSignatures w filePath ctx info) = true
  /\ SignatureCount (analyzeDigitalSignatures w filePath ctx info)
     = Z.of_nat (length (Signatures (analyzeDigitalSignatures w filePath ctx info))).
Proof.
  intros Hnil. unfold analyzeDigitalSignatures.
  destruct (ValidateSignatures w filePath) as [[|r results]|e] eqn:Hv.
  3: {
    rewrite validationStage_blocked by (intros rs H; rewrite Hv in H; discriminate H).
    destruct (detection_cases w filePath ctx info) as [H|[info' [H [_ [_ Hs]]]]];
      rewrite H; cbn [fst snd]; unfold coarseVerdict;
      cbn [Signatures setHasDigitalSignatures setSignatureCount];
      rewrite ?Hs, Hnil; intros Hne; contradiction. }
  - rewrite validationStage_blocked
      by (intros rs H; rewrite Hv in H; injection H as <-; reflexivity).
    destruct (detection_cases w filePath ctx info) as [H|[info' [H [_ [_ Hs]]]]];
      rewrite H; cbn [fst snd]; unfold coarseVerdict;
      cbn [Signatures setHasDigitalSignatures setSignatureCount];
      rewrite ?Hs, Hnil; intros Hne; contradiction.
  - rewrite (validationStage_results w filePath (r :: results)) by (exact Hv || discriminate).
    cbn [HasDigitalSignatures SignatureCount Signatures]. intros _.
    rewrite List.length_map. split; reflexivity.
Qed.

Lemma X4_details_match_count_witness :
  let final :=
    analyzeDigitalSignatures
      (Samples.world (Ok Samples.plain) (Ok [Samples.certifying; Samples.approval]))
      "signed.pdf" (Some Samples.signedDocument) newPDFInfo in
  HasDigitalSignatures final = true
  /\ SignatureCount final = Z.of_nat (length (Signatures final)).
Proof.
  apply (X4_details_match_count
           (Samples.world (Ok Samples.plain) (Ok [Samples.certifying; Samples.approval]))
           "signed.pdf" (Some Samples.signedDocument) newPDFInfo).
  - reflexivity.
  - vm_compute. discriminate.
Defined.

End analysis_properties.

(** ** The byte-pattern signature scan *)

Section byte_scan_properties.
Import strings.

Lemma authoritative_zero content :
  (Count content "/Type/Sig" + Count content "/FT/Sig" =? 0)
  = negb (Contains content "/Type/Sig" || Contains content "/FT/Sig").
Proof.
  rewrite <- !Count_pos_Contains.
  pose proof (Count_nonneg content "/Type/Sig").
  pose proof (Count_nonneg content "/FT/Sig").
  destruct (0 <? Count content "/Type/Sig") eqn:E1;
    destruct (0 <? Count content "/FT/Sig") eqn:E2; cbn [orb negb];
    try apply Z.ltb_lt in E1; try apply Z.ltb_ge in E1;
    try apply Z.ltb_lt in E2; try apply Z.ltb_ge in E2;
    try (apply Z.eqb_neq; lia); apply Z.eqb_eq; lia.
Qed.

(** Where neither authoritative pattern occurs, the dictionary-open
    markers built on them do not occur either. *)
Lemma fallback_is_sig_only content :
  Contains content "/Type/Sig" = false ->
  Contains content "/FT/Sig" = false ->
  existsb (Contains content) sigDictPatterns = Contains content "/Sig".
Proof.
  intros HT HF. unfold sigDictPatterns. cbn [existsb].
  destruct (Contains content "<</Type/Sig") eqn:E1.
  { rewrite (Contains_trans content "<</Type/Sig" "/Type/Sig") in HT
      by (exact E1 || reflexivity). discriminate HT. }
  destruct (Contains content "<</FT/Sig") eqn:E2.
  { rewrite (Contains_trans content "<</FT/Sig" "/FT/Sig") in HF
      by (exact E2 || reflexivity). discriminate HF. }
  rewrite !orb_false_r. reflexivity.
Qed.

(** X5.  The byte scan reports signatures exactly when one of the
    patterns of its two lists occurs in the bytes; the count is never
    negative. *)
Theorem X5_byte_scan_finds_iff_marker content :
  fst (scanSignatureBytes content)
  = existsb (Contains content) (signaturePatterns ++ sigDictPatterns)
  /\ 0 <= snd (scanSignatureBytes content).
Proof.
  rewrite scanSignatureBytes_specified. cbn [fst snd].
  rewrite existsb_app, signaturePatterns_split. cbn [existsb].
  unfold specifiedCount. cbv zeta. rewrite authoritative_zero.
  pose proof (Count_nonneg content "/Type/Sig").
  pose proof (Count_nonneg content "/FT/Sig").
  destruct (Contains content "/Type/Sig") eqn:ET.
  - cbn [orb negb]. rewrite <- Count_pos_Contains in ET. apply Z.ltb_lt in ET.
    split; [apply Z.ltb_lt|]; lia.
  - destruct (Contains content "/FT/Sig") eqn:EF.
    + cbn [orb negb]. rewrite <- Count_pos_Contains in EF. apply Z.ltb_lt in EF.
      split; [apply Z.ltb_lt|]; lia.
    + cbn [orb negb].
      change (existsb (Contains content) ["/Sig"; "<</Type/Sig"; "<</FT/Sig"])
        with (existsb (Contains content) sigDictPatterns).
      destruct (existsb (Contains content) corroboratingPatterns); cbn [orb];
        [split; [reflexivity | lia]|].
      destruct (existsb (Contains content) sigDictPatterns);
        split; (reflexivity || lia).
Qed.

(** X6.  The second loop can only fire through [/Sig]: its markers
    [<</Type/Sig] and [<</FT/Sig] never change the result.  The count is
    the number of authoritative occurrences, or at most 1 when there are
    none. *)
Theorem X6_fallback_only_through_sig content :
  snd (scanSignatureBytes content) =
  (if Count content "/Type/Sig" + Count content "/FT/Sig" =? 0
   then (if existsb (Contains content) corroboratingPatterns
            || Contains content "/Sig"
         then 1 else 0)
   else Count content "/Type/Sig" + Count content "/FT/Sig").
Proof.
  rewrite scanSignatureBytes_specified. cbn [snd].
  unfold specifiedCount. cbv zeta.
  destruct (Count content "/Type/Sig" + Count content "/FT/Sig" =? 0) eqn:E;
    [|reflexivity].
  rewrite authoritative_zero in E. apply negb_true_iff in E.
  apply orb_false_iff in E as [ET EF].
  change (existsb (Contains content) ["/Sig"; "<</Type/Sig"; "<</FT/Sig"])
    with (existsb (Contains content) sigDictPatterns).
  rewrite (fallback_is_sig_only content ET EF).
  destruct (existsb (Contains content) corroboratingPatterns); reflexivity.
Qed.

End byte_scan_properties.

(** ** The timestamp record *)

Section timestamp_properties.
Import strings.

Lemma timestampTypeOf_label pattern :
  In (timestampTypeOf pattern)
    ["RFC3161"; "PKCS#7"; "TSA"; "Serpro TSA"; "ICP-Brasil"; "Embedded"; "Standard"].
Proof.
  unfold timestampTypeOf.
  repeat match goal with |- context [if ?b then _ else _] => destruct b end;
    cbn [In]; tauto.
Qed.

Lemma withDefaults_time m : get (withDefaults m) "time" <> "".
Proof.
  destruct (String.eqb_spec (get m "time") "") as [E|E].
  - unfold withDefaults. cbv zeta. rewrite E. cbn [String.eqb].
    destruct (String.eqb (get (<["time" := "Unknown"]> m) "authority") "").
    + rewrite get_insert_ne, get_insert_eq by discriminate. discriminate.
    + rewrite get_insert_eq. discriminate.
  - rewrite withDefaults_keeps; exact E.
Qed.

Lemma withDefaults_authority m : get (withDefaults m) "authority" <> "".
Proof.
  destruct (String.eqb_spec (get m "authority") "") as [E|E].
  - unfold withDefaults. cbv zeta.
    destruct (String.eqb (get m "time") "").
    + rewrite (get_insert_ne m "time" "authority"), E by discriminate.
      cbn [String.eqb]. rewrite get_insert_eq. discriminate.
    + rewrite E. cbn [String.eqb]. rewrite get_insert_eq. discriminate.
  - rewrite withDefaults_keeps; exact E.
Qed.

Lemma find_existsb {A} (f : A -> bool) l :
  match List.find f l with Some _ => true | None => false end = existsb f l.
Proof.
  induction l as [|x l IH]; [reflexivity|].
  cbn [List.find existsb]. destruct (f x); [reflexivity | exact IH].
Qed.

(** X7.  A timestamp that is present carries one of the seven type
    labels; an absent one carries the empty type. *)
Theorem X7_timestamp_type_is_a_label w filePath sigInfo :
  if HasTimestamp (analyzeTimestamp w filePath sigInfo)
  then In (TimestampType (analyzeTimestamp w filePath sigInfo))
         ["RFC3161"; "PKCS#7"; "TSA"; "Serpro TSA"; "ICP-Brasil"; "Embedded"; "Standard"]
  else TimestampType (analyzeTimestamp w filePath sigInfo) = "".
Proof.
  rewrite analyzeTimestamp_result. unfold detectTimestampByteAnalysis.
  destruct (ReadFile w filePath) as [data|e]; [|reflexivity].
  rewrite scanTimestampBytes_find.
  destruct (List.find (Contains data) timestampPatterns) as [pattern|]; [|reflexivity].
  cbn [setTimestamp HasTimestamp TimestampType].
  rewrite withDefaults_type, extractAuthority_other by discriminate.
  rewrite extractTime_type, get_insert_eq. apply timestampTypeOf_label.
Qed.

(** X8.  A timestamp that is present never has an empty time or an empty
    authority: what the scan does not find is filled in as [Unknown]. *)
Theorem X8_present_timestamp_is_filled w filePath sigInfo :
  if HasTimestamp (analyzeTimestamp w filePath sigInfo)
  then TimestampTime (analyzeTimestamp w filePath sigInfo) <> ""
       /\ TimestampAuthority (analyzeTimestamp w filePath sigInfo) <> ""
  else True.
Proof.
  rewrite analyzeTimestamp_result. unfold detectTimestampByteAnalysis.
  destruct (ReadFile w filePath) as [data|e]; [|exact I].
  rewrite scanTimestampBytes_find.
  destruct (List.find (Contains data) timestampPatterns) as [pattern|]; [|exact I].
  cbn [setTimestamp HasTimestamp TimestampTime TimestampAuthority].
  split; [apply withDefaults_time | apply withDefaults_authority].
Qed.

(** X9.  A timestamp is reported exactly when the file can be read and
    one of the sixteen patterns occurs in it, whatever record is being
    filled. *)
Theorem X9_timestamp_present_iff_pattern w filePath sigInfo :
  HasTimestamp (analyzeTimestamp w filePath sigInfo) =
  match ReadFile w filePath with
  | Ok content => existsb (Contains content) timestampPatterns
  | Err _ => false
  end.
Proof.
  rewrite analyzeTimestamp_result. unfold detectTimestampByteAnalysis.
  destruct (ReadFile w filePath) as [data|e]; [|reflexivity].
  rewrite scanTimestampBytes_find, <- find_existsb.
  destruct (List.find (Contains data) timestampPatterns); reflexivity.
Qed.

End timestamp_properties.

(** ** The records built from validation results *)

Section record_properties.

Lemma analyzeTimestamp_keeps w filePath sigInfo :
  Type_ (analyzeTimestamp w filePath sigInfo) = Type_ sigInfo
  /\ IsValid (analyzeTimestamp w filePath sigInfo) = IsValid sigInfo
  /\ IsCertified (analyzeTimestamp w filePath sigInfo) = IsCertified sigInfo
  /\ Status (analyzeTimestamp w filePath sigInfo) = Status sigInfo.
Proof.
  rewrite analyzeTimestamp_result.
  destruct (detectTimestampByteAnalysis w filePath) as [[|] m]; repeat split.
Qed.

(** X10.  Every record of a detail list built by the analysis has a
    status among [Valid], [Invalid], [Unknown]; it is valid exactly when
    its status is [Valid]; and its type is [Certified] when it is
    certified and [Approval] otherwise. *)
Theorem X10_record_fields_agree w filePath ctx info sigInfo :
  Signatures info = [] ->
  In sigInfo (Signatures (analyzeDigitalSignatures w filePath ctx info)) ->
  In (Status sigInfo) ["Valid"; "Invalid"; "Unknown"]
  /\ (IsValid sigInfo = true <-> Status sigInfo = "Valid")
  /\ Type_ sigInfo = (if IsCertified sigInfo then "Certified" else "Approval").
Proof.
  intros Hnil. unfold analyzeDigitalSignatures.
  destruct (ValidateSignatures w filePath) as [[|r results]|e] eqn:Hv.
  3: {
    rewrite validationStage_blocked by (intros rs H; rewrite Hv in H; discriminate H).
    destruct (detection_cases w filePath ctx info) as [H|[info' [H [_ [_ Hs]]]]];
      rewrite H; cbn [fst snd]; unfold coarseVerdict;
      cbn [Signatures setHasDigitalSignatures setSignatureCount];
      rewrite ?Hs, Hnil; intros []. }
  - rewrite validationStage_blocked
      by (intros rs H; rewrite Hv in H; injection H as <-; reflexivity).
    destruct (detection_cases w filePath ctx info) as [H|[info' [H [_ [_ Hs]]]]];
      rewrite H; cbn [fst snd]; unfold coarseVerdict;
      cbn [Signatures setHasDigitalSignatures setSignatureCount];
      rewrite ?Hs, Hnil; intros [].
  - rewrite (validationStage_results w filePath (r :: results)) by (exact Hv || discriminate).
    cbn [Signatures]. intros Hin.
    apply in_map_iff in Hin as [result [<- _]].
    unfold signatureRecord.
    destruct (analyzeTimestamp_keeps w filePath
                {| Type_ := if Certified result then "Certified" else "Approval";
                   SubFilter := dSubFilter (Details result);
                   SignerName := dSignerName (Details result);
                   SigningTime := formatTime (dSigningTime (Details result));
                   Location := dLocation (Details result);
                   Reason := dReason (Details result);
                   ContactInfo := dContactInfo (Details result);
                   FieldName := dFieldName (Details result);
                   IsValid := Status_ result =? 1;
                   IsCertified := Certified result;
                   Status :=
                     if Status_ result =? 1 then "Valid"
                     else if Status_ result =? 2 then "Invalid" else "Unknown";
                   ValidationErrors :=
                     if 0 <? Z.of_nat (length (Problems result))
                     then Problems result else [];
                   HasTimestamp := false;
                   TimestampType := "";
                   TimestampTime := "";
                   TimestampAuthority := "";
                   TimestampStatus := "" |}) as [Ht [Hv' [Hc Hs]]].
    rewrite Ht, Hv', Hc, Hs. cbn [Type_ IsValid IsCertified Status].
    destruct (Status_ result =? 1); [|destruct (Status_ result =? 2)];
      cbn [In]; repeat split; try tauto; try discriminate.
Qed.

Lemma X10_record_fields_agree_witness :
  In (Status (signatureRecord
                (Samples.world (Ok Samples.plain) (Ok [Samples.certifying; Samples.approval]))
                "signed.pdf" Samples.approval))
    ["Valid"; "Invalid"; "Unknown"]
  /\ (IsValid (signatureRecord
                 (Samples.world (Ok Samples.plain) (Ok [Samples.certifying; Samples.approval]))
                 "signed.pdf" Samples.approval) = true
      <-> Status (signatureRecord
                    (Samples.world (Ok Samples.plain) (Ok [Samples.certifying; Samples.approval]))
                    "signed.pdf" Samples.approval) = "Valid")
  /\ Type_ (signatureRecord
              (Samples.world (Ok Samples.plain) (Ok [Samples.certifying; Samples.approval]))
              "signed.pdf" Samples.approval)
     = (if IsCertified
             (signatureRecord
                (Samples.world (Ok Samples.plain) (Ok [Samples.certifying; Samples.approval]))
                "signed.pdf" Samples.approval)
        then "Certified" else "Approval").
Proof.
  apply (X10_record_fields_agree
           (Samples.world (Ok Samples.plain) (Ok [Samples.certifying; Samples.approval]))
           "signed.pdf" None newPDFInfo).
  - reflexivity.
  - vm_compute. right. left. reflexivity.
Defined.

End record_properties.

(** ** The extracted time *)

Section time_properties.
Import strings.
Import Stdlib.Strings.Ascii.

(** Settles a test [k <=? len s] where enough leading bytes of [s] are
    spelled out. *)
Ltac settle_len :=
  repeat match goal with
         | |- context [?k <=? len ?s] =>
             first
               [ rewrite (proj2 (Z.leb_le k (len s)))
                   by (unfold len; cbn [String.length]; lia)
               | rewrite (proj2 (Z.leb_gt k (len s)))
                   by (unfold len; cbn [String.length]; lia) ]
         end.

(** The fields of a candidate of at least 15 bytes that starts with [D:]
    are copied byte for byte; the seconds are [00] when the candidate has
    exactly 15 bytes. *)
Lemma formatTimestamp_fields
    (y1 y2 y3 y4 mo1 mo2 d1 d2 h1 h2 mi1 mi2 s1 : Ascii.ascii) tail :
  formatTimestamp
    (String "D"%char (String ":"%char (String y1 (String y2 (String y3 (String y4
       (String mo1 (String mo2 (String d1 (String d2 (String h1 (String h2
          (String mi1 (String mi2 (String s1 tail)))))))))))))))
  = String y1 (String y2 (String y3 (String y4 (String "-"%char
      (String mo1 (String mo2 (String "-"%char
         (String d1 (String d2 (String " "%char
            (String h1 (String h2 (String ":"%char
               (String mi1 (String mi2 (String ":"%char
                  match tail with
                  | EmptyString => "00"
                  | String s2 _ => String s1 (String s2 "")
                  end)))))))))))))))).
Proof.
  unfold formatTimestamp.
  destruct tail as [|s2 tail].
  - vm_compute. reflexivity.
  - settle_len. destruct tail; vm_compute; reflexivity.
Qed.





Lemma substring_length_exact n m s :
  (n + m <= String.length s)%nat ->
  String.length (String.substring n m s) = m.
Proof.
  revert n m. induction s as [|c s IH]; intros n m H; cbn [String.length] in H.
  - assert (n = 0%nat) by lia. assert (m = 0%nat) by lia. subst. reflexivity.
  - destruct n as [|n].
    + destruct m as [|m]; [reflexivity|].
      cbn [String.substring String.length]. rewrite IH by lia. reflexivity.
    + cbn [String.substring]. apply IH. lia.
Qed.


(** X11.  A candidate of at least 15 bytes that starts with [D:] is
    rendered from its fixed-width fields, copied byte for byte and not
    checked to be digits: year, month, day, hour, minute, and the seconds
    from bytes 14-15, or [00] when the candidate has exactly 15 bytes. *)
Theorem X11_time_fields_copied
    (y1 y2 y3 y4 mo1 mo2 d1 d2 h1 h2 mi1 mi2 s1 : Ascii.ascii) tail :
  formatTimestamp
    (String "D"%char (String ":"%char (String y1 (String y2 (String y3 (String y4
       (String mo1 (String mo2 (String d1 (String d2 (String h1 (String h2
          (String mi1 (String mi2 (String s1 tail)))))))))))))))
  = String y1 (String y2 (String y3 (String y4 (String "-"%char
      (String mo1 (String mo2 (String "-"%char
         (String d1 (String d2 (String " "%char
            (String h1 (String h2 (String ":"%char
               (String mi1 (String mi2 (String ":"%char
                  match tail with
                  | EmptyString => "00"
                  | String s2 _ => String s1 (String s2 "")
                  end)))))))))))))))).
Proof. apply formatTimestamp_fields. Qed.


End time_properties.

(** ** The extracted authority *)

Section authority_properties.
Import strings.

Lemma Contains_char_cons c x s :
  Contains (String x s) (String c "") = Ascii.eqb c x || Contains s (String c "").
Proof.
  destruct (Ascii.eqb c x) eqn:E; cbn [orb].
  - apply Contains_here. cbn [HasPrefix]. rewrite E. reflexivity.
  - apply Contains_later. cbn [HasPrefix]. rewrite E. reflexivity.
Qed.

Lemma Contains_char_app c a b :
  Contains (a +:+ b) (String c "")
  = Contains a (String c "") || Contains b (String c "").
Proof.
  induction a as [|x a IH]; [reflexivity|].
  rewrite append_cons, !Contains_char_cons, IH, orb_assoc. reflexivity.
Qed.

Lemma substring_all n s :
  (String.length s <= n)%nat -> String.substring 0 n s = s.
Proof.
  revert n. induction s as [|x s IH]; intros n H.
  - destruct n; reflexivity.
  - destruct n as [|n]; [cbn [String.length] in H; lia|].
    cbn [String.substring]. rewrite IH by (cbn [String.length] in H; lia).
    reflexivity.
Qed.

(** A prefix of a string without the byte [c] is without it. *)
Lemma prefix_without_char c n s :
  Contains s (String c "") = false ->
  Contains (String.substring 0 n s) (String c "") = false.
Proof.
  intros H.
  destruct (le_lt_dec (String.length s) n) as [Hn|Hn].
  - rewrite substring_all by exact Hn. exact H.
  - pose proof (substring_split 0 n (String.length s - n) s) as Hs.
    rewrite substring_all in Hs by lia.
    rewrite Hs, Contains_char_app in H.
    apply orb_false_iff in H as [H _]. exact H.
Qed.

(** The bytes before the first occurrence of [c] are without it. *)
Lemma before_Index_without_char c s :
  Contains (String.substring 0 (Z.to_nat (Index s (String c ""))) s) (String c "")
  = false.
Proof.
  induction s as [|x s IH]; [reflexivity|].
  rewrite Index_eq. cbn [HasPrefix].
  destruct (Ascii.eqb c x) eqn:E; [reflexivity|].
  pose proof (Index_lower s (String c "")) as Hl.
  destruct (Index s (String c "") =? -1) eqn:En.
  - reflexivity.
  - apply Z.eqb_neq in En.
    replace (Z.to_nat (Index s (String c "") + 1))
      with (S (Z.to_nat (Index s (String c "")))) by lia.
    cbn [String.substring]. rewrite Contains_char_cons, E, IH. reflexivity.
Qed.

(** Cutting at the first occurrence of a byte, as lines 150-155 do. *)
Lemma cut_without_char c s :
  Contains
    (if negb (Index s (String c "") =? -1)
     then slice s 0 (Index s (String c "")) else s)
    (String c "") = false.
Proof.
  destruct (Index s (String c "") =? -1) eqn:E; cbn [negb].
  - apply Z.eqb_eq in E. unfold Contains. rewrite E. reflexivity.
  - unfold slice. rewrite Z.sub_0_r. change (Z.to_nat 0) with 0%nat.
    apply before_Index_without_char.
Qed.

Lemma cut_keeps_without_char c d s :
  Contains s (String d "") = false ->
  Contains
    (if negb (Index s (String c "") =? -1)
     then slice s 0 (Index s (String c "")) else s)
    (String d "") = false.
Proof.
  intros H. destruct (negb (Index s (String c "") =? -1)); [|exact H].
  unfold slice. change (Z.to_nat 0) with 0%nat.
  apply prefix_without_char. exact H.
Qed.

(** The shape of a cleaned authority. *)
Lemma cleanAuthority_shape authStr :
  In (cleanAuthority authStr)
    ["Serpro - ServiÃ§o Federal de Processamento de Dados";
     "ICP-Brasil Certificate Authority"]
  \/ (len (cleanAuthority authStr) <= 43
      /\ Contains (cleanAuthority authStr) newline = false
      /\ Contains (cleanAuthority authStr) nullByte = false).
Proof.
  unfold cleanAuthority. cbv zeta.
  set (a1 := if negb (Index authStr newline =? -1)
             then slice authStr 0 (Index authStr newline) else authStr).
  set (a2 := if negb (Index a1 nullByte =? -1)
             then slice a1 0 (Index a1 nullByte) else a1).
  assert (Hnl : Contains a2 newline = false).
  { unfold a2. apply (cut_keeps_without_char (Ascii.ascii_of_nat 0) (Ascii.ascii_of_nat 10)).
    unfold a1. apply (cut_without_char (Ascii.ascii_of_nat 10)). }
  assert (Hnu : Contains a2 nullByte = false).
  { unfold a2. apply (cut_without_char (Ascii.ascii_of_nat 0)). }
  destruct (Contains a2 "Serpro" || Contains a2 "Assinador Serpro");
    [left; left; reflexivity|].
  destruct (Contains a2 "ICP-Brasil"); [left; right; left; reflexivity|].
  right. destruct (40 <? len a2) eqn:E.
  - apply Z.ltb_lt in E. unfold len in E.
    assert (Hl : String.length (slice a2 0 40) = 40%nat).
    { unfold slice. change (Z.to_nat 0) with 0%nat.
      change (Z.to_nat (40 - 0)) with 40%nat.
      apply substring_length_exact. lia. }
    split; [unfold len; rewrite length_append3, Hl; cbn [String.length]; lia|].
    unfold newline, nullByte. rewrite !Contains_char_app.
    unfold slice. change (Z.to_nat 0) with 0%nat.
    rewrite (prefix_without_char _ _ a2 Hnl), (prefix_without_char _ _ a2 Hnu).
    split; reflexivity.
  - apply Z.ltb_ge in E. repeat split; [lia | exact Hnl | exact Hnu].
Qed.

Lemma extractTime_other content patterns m key :
  key <> "time" ->
  get (extractTime content patterns m) key = get m key.
Proof.
  intros Hk. induction patterns as [|p patterns IH]; [reflexivity|].
  cbn [extractTime]. cbv zeta.
  destruct (negb (Index content p =? -1)); [|exact IH].
  apply get_insert_ne. congruence.
Qed.

Lemma extractAuthority_value content patterns m :
  get (extractAuthority content patterns m) "authority" = get m "authority"
  \/ exists authStr,
       get (extractAuthority content patterns m) "authority" = cleanAuthority authStr.
Proof.
  induction patterns as [|p patterns IH]; [left; reflexivity|].
  cbn [extractAuthority]. cbv zeta.
  destruct (negb (Index content p =? -1)); [|exact IH].
  right. eexists. apply get_insert_eq.
Qed.

Lemma withDefaults_authority_value m :
  get (withDefaults m) "authority"
  = if String.eqb (get m "authority") "" then "Unknown" else get m "authority".
Proof.
  unfold withDefaults. cbv zeta.
  destruct (String.eqb (get m "time") "").
  - rewrite (get_insert_ne m "time" "authority") by discriminate.
    destruct (String.eqb (get m "authority") "").
    + apply get_insert_eq.
    + apply get_insert_ne. discriminate.
  - destruct (String.eqb (get m "authority") ""); [apply get_insert_eq | reflexivity].
Qed.

(** X13.  The authority of a timestamp that is present is one of the two
    fixed labels, or a text of at most 43 bytes (40 bytes and an ellipsis
    at most, or [Unknown]) that contains neither a newline nor a null
    byte. *)
Theorem X13_authority_is_bounded_single_line w filePath sigInfo :
  if HasTimestamp (analyzeTimestamp w filePath sigInfo)
  then In (TimestampAuthority (analyzeTimestamp w filePath sigInfo))
         ["Serpro - ServiÃ§o Federal de Processamento de Dados";
          "ICP-Brasil Certificate Authority"]
       \/ (len (TimestampAuthority (analyzeTimestamp w filePath sigInfo)) <= 43
           /\ Contains (TimestampAuthority (analyzeTimestamp w filePath sigInfo))
                newline = false
           /\ Contains (TimestampAuthority (analyzeTimestamp w filePath sigInfo))
                nullByte = false)
  else True.
Proof.
  rewrite analyzeTimestamp_result. unfold detectTimestampByteAnalysis.
  destruct (ReadFile w filePath) as [data|e]; [|exact I].
  rewrite scanTimestampBytes_find.
  destruct (List.find (Contains data) timestampPatterns) as [pattern|]; [|exact I].
  cbn [setTimestamp HasTimestamp TimestampAuthority].
  rewrite withDefaults_authority_value.
  destruct (String.eqb_spec
              (get (extractAuthority data authorityPatterns
                      (extractTime data timePatterns
                         (<["type" := timestampTypeOf pattern]> ∅))) "authority") "")
    as [E|E].
  - right. split; [|split]; [vm_compute; discriminate | vm_compute; reflexivity ..].
  - destruct (extractAuthority_value data authorityPatterns
                (extractTime data timePatterns
                   (<["type" := timestampTypeOf pattern]> ∅))) as [H|[authStr H]].
    + rewrite H, extractTime_other, get_insert_ne, get_empty in E by discriminate.
      contradiction.
    + rewrite H. apply cleanAuthority_shape.
Qed.

End authority_properties.


(** ** Human-readable sizes *)

Section size_properties.

Lemma wrap64_small z : - 2 ^ 63 <= z < 2 ^ 63 -> wrap64 z = z.
Proof. intros H. unfold wrap64. rewrite Z.mod_small by lia. lia. Qed.

(** The loop, given enough fuel, ends with the power of 1024 that brackets
    [bytes]; the multiplications stay below [2^63]. *)
Lemma unitLoop_brackets fuel :
  forall n div e bytes,
    1 <= n ->
    0 <= e ->
    div = 1024 ^ (e + 1) ->
    n * div <= bytes < (n + 1) * div ->
    bytes < 2 ^ 63 ->
    n < 1024 ^ (Z.of_nat fuel + 1) ->
    let '(div', e') := unitLoop fuel n div e in
    div' = 1024 ^ (e' + 1) /\ e <= e' /\ div' <= bytes < 1024 * div'.
Proof.
  induction fuel as [|fuel IH]; intros n div e bytes Hn He Hdiv Hb H63 Hfuel;
    cbn [unitLoop]; destruct (1024 <=? n) eqn:E.
  - apply Z.leb_le in E. change (1024 ^ (Z.of_nat 0 + 1)) with 1024 in Hfuel. lia.
  - apply Z.leb_gt in E. assert (0 < div) by (subst div; apply Z.pow_pos_nonneg; lia).
    repeat split; try lia; nia.
  - apply Z.leb_le in E.
    assert (Hd0 : 0 < div) by (subst div; apply Z.pow_pos_nonneg; lia).
    assert (Hq : Z.quot n 1024 = n / 1024) by (apply Z.quot_div_nonneg; lia).
    pose proof (Z.div_mod n 1024 ltac:(lia)) as Hdm.
    pose proof (Z.mod_pos_bound n 1024 ltac:(lia)) as Hmb.
    assert (Hw : wrap64 (div * 1024) = div * 1024) by (apply wrap64_small; nia).
    rewrite Hq, Hw.
    specialize (IH (n / 1024) (div * 1024) (e + 1) bytes).
    destruct (unitLoop fuel (n / 1024) (div * 1024) (e + 1)) as [div' e'].
    assert (Hpow : 1024 ^ (e + 1 + 1) = div * 1024).
    { rewrite (Z.pow_add_r 1024 (e + 1) 1) by lia. subst div. reflexivity. }
    assert (Hf' : n / 1024 < 1024 ^ (Z.of_nat fuel + 1)).
    { apply Z.div_lt_upper_bound; [lia|].
      replace (Z.of_nat (S fuel) + 1) with (1 + (Z.of_nat fuel + 1)) in Hfuel by lia.
      rewrite (Z.pow_add_r 1024 1 (Z.of_nat fuel + 1)) in Hfuel by lia.
      exact Hfuel. }
    destruct IH as [H1 [H2 H3]]; try lia; try nia.
  - apply Z.leb_gt in E. assert (0 < div) by (subst div; apply Z.pow_pos_nonneg; lia).
    repeat split; try lia; nia.
Qed.

Lemma log2_fuel n : 1 <= n -> n < 1024 ^ (Z.of_nat (Z.to_nat (Z.log2 n)) + 1).
Proof.
  intros Hn.
  pose proof (Z.log2_nonneg n) as Hl.
  pose proof (Z.log2_spec n ltac:(lia)) as [_ Hu].
  rewrite Z2Nat.id by exact Hl.
  eapply Z.lt_le_trans; [exact Hu|].
  change 1024 with (2 ^ 10). rewrite <- Z.pow_mul_r by lia.
  apply Z.pow_le_mono_r; lia.
Qed.

(** X14.  For a size below [2^63], [formatFileSize] never indexes the
    unit letters out of range.  Below 1024 (negative sizes included) it
    prints the plain number; from 1024 on it divides by the power
    [1024^(k+1)] with [k] from 0 to 5 for which the quotient lies between 1
    and 1024, computed without overflow, and picks the [k]-th letter of
    [KMGTPE]. *)
Theorem X14_size_unit_in_range bytes :
  bytes < 2 ^ 63 ->
  match formatFileSize bytes with
  | PlainBytes b => b = bytes /\ bytes < 1024
  | ScaledBytes b div unit =>
      b = bytes
      /\ exists k,
           0 <= k <= 5
           /\ div = 1024 ^ (k + 1)
           /\ div <= bytes < 1024 * div
           /\ String.get (Z.to_nat k) "KMGTPE" = Some unit
  | IndexOutOfRange => False
  end.
Proof.
  intros H63. unfold formatFileSize.
  destruct (bytes <? 1024) eqn:E; [apply Z.ltb_lt in E; split; [reflexivity | exact E]|].
  apply Z.ltb_ge in E. cbv zeta.
  assert (Hq : Z.quot bytes 1024 = bytes / 1024) by (apply Z.quot_div_nonneg; lia).
  rewrite Hq.
  pose proof (Z.div_mod bytes 1024 ltac:(lia)) as Hdm.
  pose proof (Z.mod_pos_bound bytes 1024 ltac:(lia)) as Hmb.
  assert (Hn : 1 <= bytes / 1024) by (apply Z.div_le_lower_bound; lia).
  pose proof (unitLoop_brackets (Z.to_nat (Z.log2 (bytes / 1024)))
                (bytes / 1024) 1024 0 bytes Hn ltac:(lia) eq_refl
                ltac:(lia) H63 (log2_fuel _ Hn)) as Hloop.
  destruct (unitLoop (Z.to_nat (Z.log2 (bytes / 1024))) (bytes / 1024) 1024 0)
    as [div e].
  destruct Hloop as [Hdiv [He Hb]].
  assert (He5 : e <= 5).
  { destruct (Z_le_gt_dec e 5) as [|Hgt]; [assumption|].
    assert (1024 ^ 7 <= 1024 ^ (e + 1)) by (apply Z.pow_le_mono_r; lia).
    change (1024 ^ 7) with 1180591620717411303424 in *.
    change (2 ^ 63) with 9223372036854775808 in *. lia. }
  rewrite (proj2 (Z.ltb_ge e 0)) by lia.
  assert (Hk : e = 0 \/ e = 1 \/ e = 2 \/ e = 3 \/ e = 4 \/ e = 5) by lia.
  destruct Hk as [Hk|[Hk|[Hk|[Hk|[Hk|Hk]]]]]; subst e;
    cbn [Z.to_nat Pos.to_nat Pos.iter_op Nat.add String.get];
    (split; [reflexivity|]); eexists; (split; [|split; [exact Hdiv|split; [exact Hb|]]]);
    (lia || reflexivity).
Qed.

Lemma X14_size_unit_in_range_witness :
  5000000 = 5000000
  /\ exists k,
       0 <= k <= 5
       /\ 1048576 = 1024 ^ (k + 1)
       /\ 1048576 <= 5000000 < 1024 * 1048576
       /\ String.get (Z.to_nat k) "KMGTPE" = Some (Ascii.ascii_of_nat 77).
Proof.
  apply (X14_size_unit_in_range 5000000). reflexivity.
Defined.

End size_properties.

(** ** Permissions *)

Section permission_properties.

Lemma bitSet_testbit p k : 0 <= k -> bitSet p (2 ^ k) = Z.testbit p k.
Proof.
  intros Hk. unfold bitSet.
  destruct (Z.testbit p k) eqn:E.
  - apply negb_true_iff. apply Z.eqb_neq. intros H0.
    assert (Hb : Z.testbit (Z.land p (2 ^ k)) k = true).
    { rewrite Z.land_spec, E, Z.pow2_bits_true by lia. reflexivity. }
    rewrite H0, Z.bits_0 in Hb. discriminate Hb.
  - apply negb_false_iff. apply Z.eqb_eq. apply Z.bits_inj'. intros n Hn.
    rewrite Z.land_spec, Z.bits_0.
    destruct (Z.eq_dec k n) as [<-|Hne].
    + rewrite E. reflexivity.
    + rewrite Z.pow2_bits_false by lia. apply andb_false_r.
Qed.

(** X15.  When the encryption dictionary carries an integer [P], every
    permission is one bit of it in two's complement, also for the negative
    values PDF writers store: printing bit 2, modifying bit 3, copying
    bit 4, notes bit 5, form filling bit 8, accessibility bit 9, assembly
    bit 10, high-quality printing bit 11. *)
Theorem X15_permissions_are_bits encDict info p :
  IntEntry encDict "P" = Some p ->
  let info' := analyzePermissions (Ok encDict) info in
  PrintAllowed info' = Z.testbit p 2
  /\ ModifyAllowed info' = Z.testbit p 3
  /\ CopyAllowed info' = Z.testbit p 4
  /\ AddNotesAllowed info' = Z.testbit p 5
  /\ FillFormsAllowed info' = Z.testbit p 8
  /\ AccessibilityAllowed info' = Z.testbit p 9
  /\ AssembleAllowed info' = Z.testbit p 10
  /\ PrintHighQualityAllowed info' = Z.testbit p 11.
Proof.
  intros HP info'. subst info'. unfold analyzePermissions. rewrite HP.
  cbn [PrintAllowed ModifyAllowed CopyAllowed AddNotesAllowed FillFormsAllowed
       AccessibilityAllowed AssembleAllowed PrintHighQualityAllowed].
  repeat split.
  - apply (bitSet_testbit p 2). lia.
  - apply (bitSet_testbit p 3). lia.
  - apply (bitSet_testbit p 4). lia.
  - apply (bitSet_testbit p 5). lia.
  - apply (bitSet_testbit p 8). lia.
  - apply (bitSet_testbit p 9). lia.
  - apply (bitSet_testbit p 10). lia.
  - apply (bitSet_testbit p 11). lia.
Qed.

Lemma X15_permissions_are_bits_witness :
  let info' := analyzePermissions (Ok sampleEncryptDict) noSecurityInfo in
  PrintAllowed info' = Z.testbit (-3052) 2
  /\ ModifyAllowed info' = Z.testbit (-3052) 3
  /\ CopyAllowed info' = Z.testbit (-3052) 4
  /\ AddNotesAllowed info' = Z.testbit (-3052) 5
  /\ FillFormsAllowed info' = Z.testbit (-3052) 8
  /\ AccessibilityAllowed info' = Z.testbit (-3052) 9
  /\ AssembleAllowed info' = Z.testbit (-3052) 10
  /\ PrintHighQualityAllowed info' = Z.testbit (-3052) 11.
Proof.
  apply (X15_permissions_are_bits sampleEncryptDict noSecurityInfo (-3052)).
  reflexivity.
Defined.

(** X16.  Without an integer [P] in the encryption dictionary all eight
    permissions are reported as allowed; the password flags are set when
    the keys [U] and [O] exist and are never cleared; and when the
    encryption dictionary cannot be obtained the record is left as it
    was. *)
Theorem X16_permissions_default_to_allowed :
  (forall e info, analyzePermissions (Err e) info = info)
  /\ (forall encDict info,
        UserPasswordSet (analyzePermissions (Ok encDict) info)
        = UserPasswordSet info || snd (Find encDict "U")
        /\ OwnerPasswordSet (analyzePermissions (Ok encDict) info)
           = OwnerPasswordSet info || snd (Find encDict "O"))
  /\ (forall encDict info,
        IntEntry encDict "P" = None ->
        let info' := analyzePermissions (Ok encDict) info in
        PrintAllowed info' = true
        /\ ModifyAllowed info' = true
        /\ CopyAllowed info' = true
        /\ AddNotesAllowed info' = true
        /\ FillFormsAllowed info' = true
        /\ AccessibilityAllowed info' = true
        /\ AssembleAllowed info' = true
        /\ PrintHighQualityAllowed info' = true).
Proof.
  split; [reflexivity|]. split.
  - intros encDict info. unfold analyzePermissions.
    destruct (IntEntry encDict "P");
      cbn [UserPasswordSet OwnerPasswordSet];
      destruct (snd (Find encDict "U")), (snd (Find encDict "O")),
               (UserPasswordSet info), (OwnerPasswordSet info); split; reflexivity.
  - intros encDict info HP info'. subst info'. unfold analyzePermissions.
    rewrite HP. repeat split.
Qed.

Lemma X16_permissions_default_to_allowed_witness :
  let info' :=
    analyzePermissions (Ok [("P", Some (types.Name "none"))]) noSecurityInfo in
  PrintAllowed info' = true
  /\ ModifyAllowed info' = true
  /\ CopyAllowed info' = true
  /\ AddNotesAllowed info' = true
  /\ FillFormsAllowed info' = true
  /\ AccessibilityAllowed info' = true
  /\ AssembleAllowed info' = true
  /\ PrintHighQualityAllowed info' = true.
Proof.
  apply (proj2 (proj2 X16_permissions_default_to_allowed)
           [("P", Some (types.Name "none"))] noSecurityInfo).
  reflexivity.
Defined.

End permission_properties.


(** ** The report on the signatures of an analysed file *)

Section report_properties.

(** The flag of an analysis result says whether its count is positive. *)
Lemma analysis_flag_count w filePath ctx info :
  HasDigitalSignatures (analyzeDigitalSignatures w filePath ctx info)
  = (0 <? SignatureCount (analyzeDigitalSignatures w filePath ctx info)).
Proof.
  unfold analyzeDigitalSignatures.
  destruct (ValidateSignatures w filePath) as [results|e] eqn:Hv.
  - destruct results as [|r results].
    + rewrite validationStage_blocked
        by (intros rs H; rewrite Hv in H; injection H as <-; reflexivity).
      destruct (detection_cases w filePath ctx info) as [H|[info' [H [Hh [Hc _]]]]];
        rewrite H; cbn [fst snd coarseVerdict]; [reflexivity|].
      cbn [setHasDigitalSignatures HasDigitalSignatures SignatureCount].
      symmetry. apply Z.ltb_lt. exact Hc.
    + rewrite (validationStage_results w filePath (r :: results))
        by (exact Hv || discriminate).
      reflexivity.
  - rewrite validationStage_blocked by (intros rs H; rewrite Hv in H; discriminate H).
    destruct (detection_cases w filePath ctx info) as [H|[info' [H [Hh [Hc _]]]]];
      rewrite H; cbn [fst snd coarseVerdict]; [reflexivity|].
    cbn [setHasDigitalSignatures HasDigitalSignatures SignatureCount].
    symmetry. apply Z.ltb_lt. exact Hc.
Qed.

(** Without validation results a fresh analysis has no detail records. *)
Lemma blocked_analysis_has_no_details w filePath ctx info :
  Signatures info = [] ->
  (forall rs, ValidateSignatures w filePath = Ok rs -> rs = []) ->
  Signatures (analyzeDigitalSignatures w filePath ctx info) = [].
Proof.
  intros Hnil Hb. unfold analyzeDigitalSignatures.
  rewrite validationStage_blocked by exact Hb.
  destruct (detection_cases w filePath ctx info) as [H|[info' [H [_ [_ Hs]]]]];
    rewrite H; cbn [fst snd]; unfold coarseVerdict;
    cbn [Signatures setHasDigitalSignatures setSignatureCount];
    rewrite ?Hs; exact Hnil.
Qed.

(** X17.  The report on a fresh analysis lists signature details exactly
    when validation returned results, one block per result in order;
    otherwise it prints the note that signatures were detected but could
    not be validated when the analysis found evidence, and the note that
    the document is unsigned when it found none. *)
Theorem X17_report_follows_validation w filePath ctx :
  printDigitalSignatures (analyzeDigitalSignatures w filePath ctx newPDFInfo)
  = List.app (signatureSummary (analyzeDigitalSignatures w filePath ctx newPDFInfo))
      match ValidateSignatures w filePath with
       | Ok (r :: rs) =>
           (newline +:+ "Signature details:")
           :: signatureBlocks 0 (List.map (signatureRecord w filePath) (r :: rs))
       | _ =>
           if HasDigitalSignatures (analyzeDigitalSignatures w filePath ctx newPDFInfo)
           then detectedNote (analyzeDigitalSignatures w filePath ctx newPDFInfo)
           else unsignedNote
       end.
Proof.
  unfold printDigitalSignatures. f_equal.
  destruct (ValidateSignatures w filePath) as [[|r results]|e] eqn:Hv.
  - rewrite (blocked_analysis_has_no_details w filePath ctx newPDFInfo eq_refl)
      by (intros rs H; rewrite Hv in H; injection H as <-; reflexivity).
    cbn [length Z.of_nat Z.ltb Z.compare]. rewrite andb_false_r. reflexivity.
  - unfold analyzeDigitalSignatures.
    rewrite (validationStage_results w filePath (r :: results))
      by (exact Hv || discriminate).
    reflexivity.
  - rewrite (blocked_analysis_has_no_details w filePath ctx newPDFInfo eq_refl)
      by (intros rs H; rewrite Hv in H; discriminate H).
    cbn [length Z.of_nat Z.ltb Z.compare]. rewrite andb_false_r. reflexivity.
Qed.

(** X18.  In the report on any analysis result the line
    [Document has signatures] says [Yes] exactly when the number printed
    on the next line is positive. *)
Theorem X18_report_summary_agrees w filePath ctx info :
  let final := analyzeDigitalSignatures w filePath ctx info in
  nth_error (printDigitalSignatures final) 2
  = Some ("Document has signatures: "
          +:+ (if 0 <? SignatureCount final then "Yes" else "No"))
  /\ nth_error (printDigitalSignatures final) 3
     = Some ("Number of signatures: " +:+ formatInt (SignatureCount final)).
Proof.
  cbv zeta. unfold printDigitalSignatures, signatureSummary.
  cbn [app nth_error]. rewrite analysis_flag_count. split; reflexivity.
Qed.

Lemma lineUnlessEmpty_filled label value :
  value <> "" -> lineUnlessEmpty label value = [label +:+ value].
Proof.
  intros H. unfold lineUnlessEmpty.
  destruct (String.eqb_spec value "") as [E|E]; [contradiction | reflexivity].
Qed.

(** X19.  For a record that went through the timestamp analyzer the
    report prints either the single line [Has timestamp: No], or
    [Has timestamp: Yes] followed by all four lines for type, time,
    authority and status: none of them is ever left out. *)
Theorem X19_timestamp_lines_complete w filePath sigInfo :
  timestampLines (analyzeTimestamp w filePath sigInfo)
  = if HasTimestamp (analyzeTimestamp w filePath sigInfo)
    then [ "    Has timestamp: Yes";
           "    Timestamp type: "
             +:+ TimestampType (analyzeTimestamp w filePath sigInfo);
           "    Timestamp time: "
             +:+ TimestampTime (analyzeTimestamp w filePath sigInfo);
           "    Timestamp authority: "
             +:+ TimestampAuthority (analyzeTimestamp w filePath sigInfo);
           "    Timestamp status: Present" ]
    else [ "    Has timestamp: No" ].
Proof.
  rewrite analyzeTimestamp_result. unfold detectTimestampByteAnalysis.
  destruct (ReadFile w filePath) as [data|e]; [|reflexivity].
  rewrite scanTimestampBytes_find.
  destruct (List.find (strings.Contains data) timestampPatterns) as [pattern|];
    [|reflexivity].
  unfold timestampLines.
  cbn [setTimestamp HasTimestamp TimestampType TimestampTime TimestampAuthority
       TimestampStatus boolToYesNo].
  rewrite (lineUnlessEmpty_filled "    Timestamp time: ") by apply withDefaults_time.
  rewrite (lineUnlessEmpty_filled "    Timestamp authority: ")
    by apply withDefaults_authority.
  rewrite (lineUnlessEmpty_filled "    Timestamp type: ").
  2: { rewrite withDefaults_type, extractAuthority_other by discriminate.
       rewrite extractTime_type, get_insert_eq. apply timestampTypeOf_nonempty. }
  reflexivity.
Qed.

End report_properties.

(** ** The entry point *)

Section entry_properties.

(** X20.  [AnalyzePDF] fails only when the file information cannot be
    obtained, with a message that wraps that error.  Otherwise its result
    has a flag that says whether the count is positive, and detail records
    only in a number equal to the count; and when the document cannot be
    opened by the parser nothing is reported, since the byte scan is then
    never reached. *)
Theorem X20_AnalyzePDF_result h filePath :
  match AnalyzePDF h filePath with
  | Err msg =>
      exists e,
        getFileInfo h filePath = Err e
        /\ msg = "error getting file information: " +:+ e
  | Ok info =>
      (exists u, getFileInfo h filePath = Ok u)
      /\ HasDigitalSignatures info = (0 <? SignatureCount info)
      /\ (Signatures info = []
          \/ SignatureCount info = Z.of_nat (length (Signatures info)))
      /\ (forall e, ReadContextFile h filePath = Err e -> info = newPDFInfo)
  end.
Proof.
  unfold AnalyzePDF, analyzePDFCPU.
  destruct (getFileInfo h filePath) as [u|e]; [|exists e; split; reflexivity].
  destruct (ReadContextFile h filePath) as [ctx|e] eqn:Hctx.
  - split; [exists u; reflexivity|].
    split; [apply analysis_flag_count|].
    split; [|intros e H; discriminate H].
    unfold analyzeDigitalSignatures.
    destruct (ValidateSignatures (world h) filePath) as [[|r results]|e] eqn:Hv.
    + left. apply (blocked_analysis_has_no_details (world h) filePath (Some ctx) newPDFInfo eq_refl).
      intros rs H; rewrite Hv in H; injection H as <-; reflexivity.
    + right. rewrite (validationStage_results (world h) filePath (r :: results))
        by (exact Hv || discriminate).
      cbn [SignatureCount Signatures]. rewrite List.length_map. reflexivity.
    + left. apply (blocked_analysis_has_no_details (world h) filePath (Some ctx) newPDFInfo eq_refl).
      intros rs H; rewrite Hv in H; discriminate H.
  - split; [exists u; reflexivity|].
    split; [reflexivity|]. split; [left; reflexivity|]. intros; reflexivity.
Qed.

End entry_properties.

(** ** The single-file build: the AcroForm walk and its locator *)

Section single_file_properties.
Import types model.

Lemma countFields_fold ctx (a : Array) (acc : Z) :
  acc
  <= fold_left
       (fun signatureCount fieldRef =>
          match Monolith.resolveFieldDict ctx fieldRef with
          | None => signatureCount
          | Some fieldDict =>
              if Monolith.isSignatureField fieldDict
              then signatureCount + 1 else signatureCount
          end) a acc
  <= acc + Z.of_nat (length a).
Proof.
  revert acc. induction a as [|f a IH]; intros acc.
  - cbn [fold_left length Z.of_nat]. lia.
  - cbn [fold_left length]. rewrite Nat2Z.inj_succ.
    destruct (Monolith.resolveFieldDict ctx f) as [d|].
    + destruct (Monolith.isSignatureField d).
      * specialize (IH (acc + 1)). lia.
      * specialize (IH acc). lia.
    + specialize (IH acc). lia.
Qed.

Lemma countFields_bounds ctx (a : Array) :
  0 <= Monolith.countFields ctx a <= Z.of_nat (length a).
Proof.
  unfold Monolith.countFields. pose proof (countFields_fold ctx a 0). lia.
Qed.

(** What one call of the walk returns and leaves in [info]. *)
Lemma processAcroForm_run ctx acroFormObj info :
  0 <= fst (Monolith.processAcroForm ctx acroFormObj info)
  /\ snd (Monolith.processAcroForm ctx acroFormObj info)
     = if 0 <? fst (Monolith.processAcroForm ctx acroFormObj info)
       then {| HasDigitalSignatures := true;
               SignatureCount := fst (Monolith.processAcroForm ctx acroFormObj info);
               Signatures := Signatures info |}
       else info.
Proof.
  unfold Monolith.processAcroForm.
  destruct acroFormObj as [| |d| | | |]; try (split; [cbn; lia | reflexivity]).
  destruct (Entry d "Fields") as [[fieldsObj|] [|]];
    try (split; [cbn; lia | reflexivity]).
  assert (Hwalk : forall a,
    0 <= fst (let signatureCount := Monolith.countFields ctx a in
              if 0 <? signatureCount
              then (signatureCount,
                    setSignatureCount signatureCount (setHasDigitalSignatures true info))
              else (signatureCount, info))
    /\ snd (let signatureCount := Monolith.countFields ctx a in
            if 0 <? signatureCount
            then (signatureCount,
                  setSignatureCount signatureCount (setHasDigitalSignatures true info))
            else (signatureCount, info))
       = if 0 <? fst (let signatureCount := Monolith.countFields ctx a in
                      if 0 <? signatureCount
                      then (signatureCount,
                            setSignatureCount signatureCount
                              (setHasDigitalSignatures true info))
                      else (signatureCount, info))
         then {| HasDigitalSignatures := true;
                 SignatureCount :=
                   fst (let signatureCount := Monolith.countFields ctx a in
                        if 0 <? signatureCount
                        then (signatureCount,
                              setSignatureCount signatureCount
                                (setHasDigitalSignatures true info))
                        else (signatureCount, info));
                 Signatures := Signatures info |}
         else info).
  { intros a. cbv zeta. pose proof (countFields_bounds ctx a) as Hb.
    destruct (0 <? Monolith.countFields ctx a) eqn:Hpos; cbn [fst snd].
    - rewrite Hpos. split; [lia | reflexivity].
    - rewrite Hpos. split; [lia | reflexivity]. }
  destruct fieldsObj as [|r| |a| | |]; try (split; [cbn; lia | reflexivity]).
  - destruct (Dereference ctx r) as [[o|]|e]; try (split; [cbn; lia | reflexivity]).
    destruct o as [| | |a| | |]; try (split; [cbn; lia | reflexivity]).
    apply Hwalk.
  - apply Hwalk.
Qed.

(** The single-file locator in terms of the walk and of the locator of
    [signatures.go]. *)
Lemma SingleFile_locator_run c info :
  SingleFile.detectSignatureFields (Some c) info
  = match RootDict c with
    | None => (false, info)
    | Some root =>
        match Entry root "AcroForm" with
        | (Some acroFormObj, true) =>
            if 0 <? fst (Monolith.processAcroForm c acroFormObj info)
            then (true,
                  {| HasDigitalSignatures := true;
                     SignatureCount :=
                       Z.max (fst (Monolith.processAcroForm c acroFormObj info))
                             (scanXRefTable c);
                     Signatures := Signatures info |})
            else detectSignatureFields (Some c) info
        | _ => detectSignatureFields (Some c) info
        end
    end.
Proof.
  unfold SingleFile.detectSignatureFields, detectSignatureFields, locatorEstimate,
    processAcroForm.
  destruct (RootDict c) as [root|]; [|reflexivity].
  destruct (Entry root "AcroForm") as [[a|] [|]]; try reflexivity.
  destruct (processAcroForm_run c a info) as [Hn Hinfo].
  destruct (Monolith.processAcroForm c a info) as [n info'].
  cbn [fst snd] in *.
  destruct (0 <? n) eqn:Hpos.
  - subst info'. cbn [negb andb]. rewrite orb_true_r.
    cbn [setHasDigitalSignatures setSignatureCount SignatureCount
         HasDigitalSignatures Signatures].
    apply Z.ltb_lt in Hpos.
    destruct (n <? scanXRefTable c) eqn:Hlt.
    + apply Z.ltb_lt in Hlt. rewrite Z.max_r by lia. reflexivity.
    + apply Z.ltb_ge in Hlt. rewrite Z.max_l by lia. reflexivity.
  - subst info'. reflexivity.
Qed.

(** X21.  The AcroForm walk of the single-file build counts at most one
    signature per entry of the field array.  A call that counts nothing
    leaves the result record as it was; a call that counts [n > 0] sets the
    flag and overwrites the count with [n], whatever the count was, and
    never touches the detail records. *)
Theorem X21_acroform_walk_effect ctx :
  (forall a : Array, 0 <= Monolith.countFields ctx a <= Z.of_nat (length a))
  /\ forall acroFormObj info,
       0 <= fst (Monolith.processAcroForm ctx acroFormObj info)
       /\ snd (Monolith.processAcroForm ctx acroFormObj info)
          = if 0 <? fst (Monolith.processAcroForm ctx acroFormObj info)
            then {| HasDigitalSignatures := true;
                    SignatureCount :=
                      fst (Monolith.processAcroForm ctx acroFormObj info);
                    Signatures := Signatures info |}
            else info.
Proof.
  split; [apply countFields_bounds | apply processAcroForm_run].
Qed.

(** X22.  The locator of the single-file build differs from the one of
    [signatures.go] only when the catalog has an AcroForm whose walk counts
    a field: it then reports the larger of the walk's count and the
    cross-reference scan's count and discards the count the record held.
    In every other case the two locators return the same result. *)
Theorem X22_single_file_locator c info :
  SingleFile.detectSignatureFields (Some c) info
  = match RootDict c with
    | None => (false, info)
    | Some root =>
        match Entry root "AcroForm" with
        | (Some acroFormObj, true) =>
            if 0 <? fst (Monolith.processAcroForm c acroFormObj info)
            then (true,
                  {| HasDigitalSignatures := true;
                     SignatureCount :=
                       Z.max (fst (Monolith.processAcroForm c acroFormObj info))
                             (scanXRefTable c);
                     Signatures := Signatures info |})
            else detectSignatureFields (Some c) info
        | _ => detectSignatureFields (Some c) info
        end
    end.
Proof.
  apply SingleFile_locator_run.
Qed.

(** X23.  Whenever the locator of the single-file build answers [true],
    the record it leaves has the flag set and a positive count, and its
    detail records are the ones it was given; when it answers [false] the
    record is untouched. *)
Theorem X23_single_file_verdict ctx info :
  SingleFile.detectSignatureFields ctx info = (false, info)
  \/ exists info',
       SingleFile.detectSignatureFields ctx info = (true, info')
       /\ HasDigitalSignatures info' = true
       /\ 0 < SignatureCount info'
       /\ Signatures info' = Signatures info.
Proof.
  destruct ctx as [c|]; [|left; reflexivity].
  rewrite SingleFile_locator_run.
  destruct (RootDict c) as [root|] eqn:Hroot; [|left; reflexivity].
  assert (Hmod :
    detectSignatureFields (Some c) info = (false, info)
    \/ exists info',
         detectSignatureFields (Some c) info = (true, info')
         /\ HasDigitalSignatures info' = true
         /\ 0 < SignatureCount info'
         /\ Signatures info' = Signatures info).
  { destruct (detectSignatureFields_cases (Some c) info) as [H|[estimate [Hpos H]]];
      [left; exact H|].
    right. eexists. split; [exact H|].
    cbn [HasDigitalSignatures SignatureCount Signatures]. repeat split. lia. }
  destruct (Entry root "AcroForm") as [[a|] [|]]; try exact Hmod.
  destruct (0 <? fst (Monolith.processAcroForm c a info)) eqn:Hpos; [|exact Hmod].
  right. eexists. split; [reflexivity|].
  cbn [HasDigitalSignatures SignatureCount Signatures].
  apply Z.ltb_lt in Hpos. repeat split. lia.
Qed.

(** X24.  The two builds resolve a field reference to the same
    dictionary: a direct dictionary is itself, an indirect reference is
    the dictionary it dereferences to, anything else (also a failed
    dereference) is nil. *)
Theorem X24_resolveFieldDict_agrees ctx fieldRef :
  Monolith.resolveFieldDict ctx fieldRef = resolveFieldDict ctx fieldRef.
Proof.
  unfold Monolith.resolveFieldDict, resolveFieldDict.
  destruct fieldRef as [[|r| | | | |]|]; try reflexivity.
  destruct (Dereference ctx r) as [[[| | | | | |]|]|e]; reflexivity.
Qed.

(** X25.  Every field dictionary that the test of [signatures.go] takes
    for a signature field (its [FT] entry is the name [Sig]) is taken for
    one by the test of the single-file build too. *)
Theorem X25_signature_field_tests_nested (fieldDict : Dict) :
  isSignatureField (Some fieldDict) = true ->
  Monolith.isSignatureField fieldDict = true.
Proof.
  unfold isSignatureField, Monolith.isSignatureField, isName.
  destruct (Entry fieldDict "FT") as [[[n| | | | | |]|] [|]];
    cbn [andb]; try discriminate.
  destruct (String.eqb n "Sig"); [reflexivity | discriminate].
Qed.

Lemma X25_signature_field_tests_nested_witness :
  Monolith.isSignatureField [("FT", Some (Name "Sig"))] = true.
Proof.
  apply (X25_signature_field_tests_nested [("FT", Some (Name "Sig"))]).
  reflexivity.
Defined.

End single_file_properties.
